(** * Spanish crypto tax calculator: FIFO engine and CSV normalizer

    A shallow embedding of [src/webhook.py]: the [Transaction] class, the
    [SimpleTaxEngine] class (FIFO lot matching, gain/loss accumulation,
    summary and tax estimate) and the row loop of [parse_binance_csv].

    Numbers.  The engine is modelled twice.  [Engine] computes on exact
    rationals ([Q]): sums, products, quotients and comparisons are the
    exact ones.  [FloatEngine] is the same code on binary64 floats, with
    the IEEE 754 operations and Python's [round]; it is the model for what
    is said about rounding, overflow and NaN.

    State.  The engine object is a record that every method takes and
    returns; [self.lots] is a finite map from asset names to lot lists. *)

From Stdlib Require Import ZArith QArith Qround Qabs Lqa Ascii Floats.
From stdpp Require Import base gmap strings list.

(** ** Numeric helpers *)

Module Num.

Local Open Scope Q_scope.

(** [x < y] and [x <= y] as booleans, as the Python conditions use them. *)
Definition Qltb (x y : Q) : bool := negb (Qle_bool y x).
Definition Qleb (x y : Q) : bool := Qle_bool x y.

(** Nearest integer, ties to the even neighbour. *)
Definition round_half_even (x : Q) : Z :=
  let f := Qfloor x in
  match Qcompare (x - inject_Z f) (1 # 2) with
  | Lt => f
  | Gt => (f + 1)%Z
  | Eq => if Z.even f then f else (f + 1)%Z
  end.

(** Python's [round(x, ndigits)]. *)
Definition round (x : Q) (ndigits : nat) : Q :=
  let p := inject_Z (10 ^ Z.of_nat ndigits)%Z in
  inject_Z (round_half_even (x * p)) / p.

End Num.

(** ** The engine *)

Module Engine.

Import Num.
Local Open Scope Q_scope.

(** [datetime] values are only stored by the engine, never inspected. *)
Record datetime := mk_datetime {
  year : Z; month : Z; day : Z; hour : Z; minute : Z; second : Z
}.

(** class [Transaction] (lines 29-45). *)
Record Transaction := mk_tx {
  date : datetime;
  asset : string;
  tx_type : string;   (* 'buy', 'sell', 'staking', 'transfer' *)
  amount : Q;
  price_eur : Q;
  fee_eur : Q
}.

(** [Transaction.total_cost] (lines 40-42). *)
Definition total_cost (tx : Transaction) : Q :=
  (amount tx * price_eur tx) + fee_eur tx.

(** The dictionaries appended to [self.lots[asset]] (lines 80-85). *)
Record Lot := mk_lot {
  quantity : Q;
  cost_eur_total : Q;
  cost_per_unit : Q;
  lot_date : datetime
}.

(** The attributes of a [SimpleTaxEngine] object (lines 54-60). *)
Record SimpleTaxEngine := mk_engine {
  transactions : list Transaction;
  lots : gmap string (list Lot);
  gains : Q;
  losses : Q;
  staking_income : Q;
  errors : list string
}.

(** [SimpleTaxEngine.__init__]. *)
Definition init : SimpleTaxEngine :=
  {| transactions := []; lots := ∅; gains := 0; losses := 0;
     staking_income := 0; errors := [] |}.

Definition set_transactions v (s : SimpleTaxEngine) :=
  {| transactions := v; lots := lots s; gains := gains s;
     losses := losses s; staking_income := staking_income s;
     errors := errors s |}.
Definition set_lots v (s : SimpleTaxEngine) :=
  {| transactions := transactions s; lots := v; gains := gains s;
     losses := losses s; staking_income := staking_income s;
     errors := errors s |}.
Definition set_gains v (s : SimpleTaxEngine) :=
  {| transactions := transactions s; lots := lots s; gains := v;
     losses := losses s; staking_income := staking_income s;
     errors := errors s |}.
Definition set_losses v (s : SimpleTaxEngine) :=
  {| transactions := transactions s; lots := lots s; gains := gains s;
     losses := v; staking_income := staking_income s;
     errors := errors s |}.
Definition set_staking_income v (s : SimpleTaxEngine) :=
  {| transactions := transactions s; lots := lots s; gains := gains s;
     losses := losses s; staking_income := v; errors := errors s |}.
Definition set_errors v (s : SimpleTaxEngine) :=
  {| transactions := transactions s; lots := lots s; gains := gains s;
     losses := losses s; staking_income := staking_income s;
     errors := v |}.

(** [_process_buy] (lines 75-85): a missing key is first bound to the
    empty list, then the new lot is appended. *)
Definition new_lot (tx : Transaction) : Lot :=
  {| quantity := amount tx;
     cost_eur_total := total_cost tx;
     cost_per_unit :=
       if Qltb 0 (amount tx) then total_cost tx / amount tx else 0;
     lot_date := date tx |}.

Definition _process_buy (tx : Transaction) (s : SimpleTaxEngine)
  : SimpleTaxEngine :=
  let cur := default [] (lots s !! asset tx) in
  set_lots (<[asset tx := cur ++ [new_lot tx]]> (lots s)) s.

(** The state of the [while] loop of [_process_sell] (lines 97-111):
    the asset's lot list, [remaining] and [cost_basis]. *)
Record SellLoop := mk_loop {
  loop_lots : list Lot;
  remaining : Q;
  cost_basis : Q
}.

(** The loop.  Each iteration either pops the head lot and goes on, or
    shrinks the head lot and sets [remaining] to 0, which ends the loop;
    so the recursion is structural in the lot list. *)
Fixpoint sell_loop (ls : list Lot) (rem cb : Q) : SellLoop :=
  match ls with
  | [] => mk_loop [] rem cb
  | lot :: rest =>
      if Qltb 0 rem then
        if Qleb (quantity lot) rem then
          sell_loop rest (rem - quantity lot) (cb + cost_eur_total lot)
        else
          let portion_cost := cost_per_unit lot * rem in
          mk_loop
            ({| quantity := quantity lot - rem;
                cost_eur_total := cost_eur_total lot - portion_cost;
                cost_per_unit := cost_per_unit lot;
                lot_date := lot_date lot |} :: rest)
            0 (cb + portion_cost)
      else mk_loop ls rem cb
  end.

Definition sale_error (a : string) : string :=
  "Venta sin compra previa: " +:+ a.

(** The guard of line 89: the asset has no key in [self.lots], or its
    lot list is empty. *)
Definition no_lots (s : SimpleTaxEngine) (a : string) : bool :=
  match lots s !! a with
  | None | Some [] => true
  | Some (_ :: _) => false
  end.

(** Lines 93-111: the loop run on the asset's lots, from
    [remaining = tx.amount] and [cost_basis = 0]. *)
Definition run_sell_loop (tx : Transaction) (s : SimpleTaxEngine)
  : SellLoop :=
  sell_loop (default [] (lots s !! asset tx)) (amount tx) 0.

(** Line 114: [gain = proceeds - cost_basis - tx.fee_eur], with
    [proceeds = tx.amount * tx.price_eur] (line 94). *)
Definition realized_gain (tx : Transaction) (s : SimpleTaxEngine) : Q :=
  let proceeds := amount tx * price_eur tx in
  proceeds - cost_basis (run_sell_loop tx s) - fee_eur tx.

(** [_process_sell] (lines 87-119). *)
Definition _process_sell (tx : Transaction) (s : SimpleTaxEngine)
  : SimpleTaxEngine :=
  if no_lots s (asset tx) then
    set_errors (errors s ++ [sale_error (asset tx)]) s
  else
    let r := run_sell_loop tx s in
    let s1 := set_lots (<[asset tx := loop_lots r]> (lots s)) s in
    let gain := realized_gain tx s in
    if Qltb 0 gain then set_gains (gains s1 + gain) s1
    else set_losses (losses s1 + gain) s1.

(** [_process_staking] (lines 121-123). *)
Definition _process_staking (tx : Transaction) (s : SimpleTaxEngine)
  : SimpleTaxEngine :=
  set_staking_income (staking_income s + amount tx * price_eur tx) s.

(** [add_transaction] (lines 62-73); any other type string only records
    the transaction. *)
Definition add_transaction (tx : Transaction) (s : SimpleTaxEngine)
  : SimpleTaxEngine :=
  let s0 := set_transactions (transactions s ++ [tx]) s in
  if String.eqb (tx_type tx) "buy" then _process_buy tx s0
  else if String.eqb (tx_type tx) "sell" then _process_sell tx s0
  else if String.eqb (tx_type tx) "staking" then _process_staking tx s0
  else s0.

(** [_estimate_tax] (lines 139-153). *)
Definition _estimate_tax (net_position : Q) : Q :=
  let rate :=
    if Qleb net_position 6000 then 19 # 100
    else if Qleb net_position 50000 then 21 # 100
    else if Qleb net_position 200000 then 23 # 100
    else 27 # 100 in
  if Qltb 0 net_position then round (net_position * rate) 2 else 0.

(** The dictionary returned by [get_summary] (lines 125-137). *)
Record Summary := mk_summary {
  sum_gains : Q;
  sum_losses : Q;
  sum_net_position : Q;
  sum_staking_income : Q;
  sum_total_transactions : nat;
  sum_errors : list string;
  sum_estimated_tax_liability : Q
}.

Definition get_summary (s : SimpleTaxEngine) : Summary :=
  let net_position := gains s + losses s in
  {| sum_gains := round (gains s) 2;
     sum_losses := round (Qabs (losses s)) 2;
     sum_net_position := round net_position 2;
     sum_staking_income := round (staking_income s) 2;
     sum_total_transactions := length (transactions s);
     sum_errors := errors s;
     sum_estimated_tax_liability := _estimate_tax net_position |}.

(** The engine run of [calculate] (lines 295-301): a fresh engine, every
    transaction added in order, then the summary. *)
Definition run_engine (txs : list Transaction) : SimpleTaxEngine :=
  fold_left (fun s tx => add_transaction tx s) txs init.

Definition run_ledger (txs : list Transaction) : Summary :=
  get_summary (run_engine txs).

End Engine.

(** ** Python string operations used by the normalizer *)

Module PyStr.

(** [str.lower] on the ASCII letters. *)
Definition lower_ascii (c : ascii) : ascii :=
  let n := nat_of_ascii c in
  if (65 <=? n)%nat && (n <=? 90)%nat then ascii_of_nat (n + 32) else c.

Fixpoint lower (s : string) : string :=
  match s with
  | EmptyString => EmptyString
  | String c r => String (lower_ascii c) (lower r)
  end.

(** [sub in s]. *)
Fixpoint contains (sub s : string) : bool :=
  String.prefix sub s ||
  match s with
  | EmptyString => false
  | String _ r => contains sub r
  end.

(** [s.split('.')[0]]: what precedes the first dot. *)
Fixpoint before_dot (s : string) : string :=
  match s with
  | EmptyString => EmptyString
  | String c r =>
      if Ascii.eqb c "." then EmptyString else String c (before_dot r)
  end.

(** Truth value of an optional string: [None] and [''] are false. *)
Definition truthy (o : option string) : bool :=
  match o with
  | Some s => negb (String.eqb s "")
  | None => false
  end.

(** [a or b] on values that are a string or [None]. *)
Definition py_or (a b : option string) : option string :=
  if truthy a then a else b.

(** [a or 'literal'] with a non-empty literal. *)
Definition py_or_lit (a : option string) (d : string) : string :=
  match a with
  | Some s => if String.eqb s "" then d else s
  | None => d
  end.

End PyStr.

(** ** The normalizer: the row loop of [parse_binance_csv] *)

Module Normalizer.

Import Num PyStr Engine.
Local Open Scope Q_scope.

(** A row of [csv.DictReader]: header names to cell texts.  A key that is
    missing, or bound to [None] on a short row, has no entry; the code
    reads rows through [row.get] only, which does not tell them apart. *)
Abbreviation Row := (gmap string string).

(** Lines 198-206: the transaction type from the label and the sign. *)
Definition classify (operation : string) (change : Q) : string :=
  if contains "buy" (lower operation) || Qltb 0 change then "buy"
  else if contains "sell" (lower operation) || Qltb change 0 then "sell"
  else if contains "stake" (lower operation)
          || contains "reward" (lower operation) then "staking"
  else "transfer".

(** Lines 179-182 and 195: each logical field is read from the first
    column name, in order, that holds a non-empty cell. *)
Definition date_field (row : Row) : option string :=
  py_or (py_or (row !! "Date(UTC)") (row !! "Date")) (row !! "UTC_Time").
Definition coin_field (row : Row) : option string :=
  py_or (row !! "Coin") (row !! "Asset").
Definition change_field (row : Row) : option string :=
  py_or (row !! "Change") (row !! "Amount").
Definition operation_field (row : Row) : string :=
  py_or_lit (py_or (row !! "Operation") (row !! "Type")) "unknown".
Definition price_field (row : Row) : option string :=
  py_or (row !! "Price") (row !! "Value").

(** What one iteration of the row loop does. *)
Inductive RowResult :=
| Parsed (tx : Transaction)   (* [transactions.append(tx)] *)
| Incomplete                  (* [continue] at line 185 *)
| Failed.                     (* exception caught at line 219, row logged *)

Section Rows.

(** The two library parsers.  [float s] is [None] where Python's
    [float(s)] raises; [strptime s] is [None] where
    [datetime.strptime(s, '%Y-%m-%d %H:%M:%S')] raises. *)
Variable float : string -> option Q.
Variable strptime : string -> option datetime.

(** Lines 194-196: [price_str] is never empty, so the conditional
    always takes the [float] branch. *)
Definition parse_price (row : Row) : option Q :=
  let price_str := py_or_lit (price_field row) "0" in
  if String.eqb price_str "" then Some 0 else float price_str.

(** Lines 177-221, one row. *)
Definition parse_row (row : Row) : RowResult :=
  if truthy (date_field row) && truthy (coin_field row)
     && truthy (change_field row) then
    match date_field row, coin_field row, change_field row with
    | Some date_str, Some coin, Some change_str =>
        match strptime (before_dot date_str) with
        | None => Failed
        | Some dt =>
            match float change_str with
            | None => Failed
            | Some change =>
                match parse_price row with
                | None => Failed
                | Some price =>
                    Parsed {| date := dt; asset := coin;
                              tx_type :=
                                classify (operation_field row) change;
                              amount := Qabs change;
                              price_eur := price;
                              fee_eur := 0 |}
                end
            end
        end
    | _, _, _ => Incomplete
    end
  else Incomplete.

(** The loop over the rows: parsed rows are kept in order, the others
    are skipped. *)
Fixpoint parse_binance_rows (rows : list Row) : list Transaction :=
  match rows with
  | [] => []
  | row :: rest =>
      match parse_row row with
      | Parsed tx => tx :: parse_binance_rows rest
      | Incomplete | Failed => parse_binance_rows rest
      end
  end.

End Rows.

End Normalizer.

(** ** Executable instances of the two library parsers

    [float] on decimal literals (optional surrounding white space, sign,
    digits with an optional fraction, optional exponent, single
    underscores between digits) and [strptime] for the one format the
    normalizer uses.  [float] gives the exact value of the decimal text,
    not the binary64 value nearest to it, and no value at all for [inf]
    and [nan], which have none among the rationals; digits and white
    space outside ASCII are not recognised. *)

Module PyParse.

Import Engine.
Local Open Scope Q_scope.

Definition is_space (c : ascii) : bool :=
  let n := nat_of_ascii c in
  (n =? 32)%nat || ((9 <=? n)%nat && (n <=? 13)%nat).

Definition digit_of (c : ascii) : option Z :=
  let n := nat_of_ascii c in
  if (48 <=? n)%nat && (n <=? 57)%nat then Some (Z.of_nat (n - 48)) else None.

Fixpoint lstrip (s : string) : string :=
  match s with
  | String c r => if is_space c then lstrip r else s
  | EmptyString => s
  end.

Definition strip (s : string) : string :=
  let rev_str t :=
    String.string_of_list_ascii (List.rev (String.list_ascii_of_string t)) in
  rev_str (lstrip (rev_str (lstrip s))).

(** A run of digits, in which one underscore may stand between two
    digits: its value on top of [acc], its number of digits, the rest. *)
Fixpoint digits (s : string) (acc : Z) (n : nat) : Z * nat * string :=
  match s with
  | String c r =>
      match digit_of c with
      | Some d =>
          match r with
          | String "_" (String c2 _ as r') =>
              match digit_of c2 with
              | Some _ => digits r' (10 * acc + d)%Z (S n)
              | None => ((10 * acc + d)%Z, S n, r)
              end
          | _ => digits r (10 * acc + d)%Z (S n)
          end
      | None => (acc, n, s)
      end
  | EmptyString => (acc, n, s)
  end.

(** An optional sign: [true] for a minus. *)
Definition sign (s : string) : bool * string :=
  match s with
  | String "-" r => (true, r)
  | String "+" r => (false, r)
  | _ => (false, s)
  end.

(** The exponent part up to the end of the text. *)
Definition exponent (s : string) : option Z :=
  match s with
  | EmptyString => Some 0%Z
  | String c r =>
      if Ascii.eqb c "e" || Ascii.eqb c "E" then
        let '(neg, r1) := sign r in
        match digits r1 0 0 with
        | (v, S _, EmptyString) => Some (if neg then - v else v)%Z
        | _ => None
        end
      else None
  end.

Definition scale (m e : Z) : Q :=
  if (0 <=? e)%Z then inject_Z (m * 10 ^ e)
  else Qmake m (Z.to_pos (10 ^ (- e))).

Definition float (s0 : string) : option Q :=
  let '(neg, s1) := sign (strip s0) in
  let '(ip, ni, s2) := digits s1 0 0 in
  let '(m, nf, s3) :=
    match s2 with
    | String "." r => digits r ip 0
    | _ => (ip, 0%nat, s2)
    end in
  if (ni + nf =? 0)%nat then None
  else
    match exponent s3 with
    | Some e =>
        let v := scale m (e - Z.of_nat nf) in
        Some (if neg then - v else v)
    | None => None
    end.

(** A field of one or two digits. *)
Definition field2 (s : string) : option (Z * string) :=
  match s with
  | String c1 r1 =>
      match digit_of c1 with
      | Some d1 =>
          match r1 with
          | String c2 r2 =>
              match digit_of c2 with
              | Some d2 => Some (10 * d1 + d2, r2)%Z
              | None => Some (d1, r1)
              end
          | EmptyString => Some (d1, r1)
          end
      | None => None
      end
  | EmptyString => None
  end.

(** The year: four digits. *)
Definition field4 (s : string) : option (Z * string) :=
  match s with
  | String a (String b (String c (String d r))) =>
      match digit_of a, digit_of b, digit_of c, digit_of d with
      | Some x, Some y, Some z, Some w =>
          Some (1000 * x + 100 * y + 10 * z + w, r)%Z
      | _, _, _, _ => None
      end
  | _ => None
  end.

Definition expect (c : ascii) (s : string) : option string :=
  match s with
  | String c' r => if Ascii.eqb c c' then Some r else None
  | EmptyString => None
  end.

(** A white-space character for the pattern of [strptime]. *)
Definition is_space_re (c : ascii) : bool :=
  let n := nat_of_ascii c in
  is_space c || ((28 <=? n)%nat && (n <=? 31)%nat).

Fixpoint skip_spaces (s : string) : string :=
  match s with
  | String c r => if is_space_re c then skip_spaces r else s
  | EmptyString => s
  end.

(** One or more white-space characters. *)
Definition spaces (s : string) : option string :=
  match s with
  | String c r => if is_space_re c then Some (skip_spaces r) else None
  | EmptyString => None
  end.

(** The day: one or two digits, or a space and one digit from 1 to 9. *)
Definition field_day (s : string) : option (Z * string) :=
  match s with
  | String " " (String c r) =>
      match digit_of c with
      | Some d => if (1 <=? d)%Z then Some (d, r) else None
      | None => None
      end
  | _ => field2 s
  end.

Definition in_range (lo hi v : Z) : bool := ((lo <=? v) && (v <=? hi))%Z.

Definition is_leap (y : Z) : bool :=
  ((y mod 4 =? 0) && (negb (y mod 100 =? 0) || (y mod 400 =? 0)))%Z.

Definition days_in_month (y m : Z) : Z :=
  (if m =? 2 then (if is_leap y then 29 else 28)
   else if (m =? 4) || (m =? 6) || (m =? 9) || (m =? 11) then 30
   else 31)%Z.

(** [datetime.strptime(s, '%Y-%m-%d %H:%M:%S')]. *)
Definition strptime (s : string) : option datetime :=
  '(y, s) ← field4 s;
  s ← expect "-" s;
  '(mo, s) ← field2 s;
  s ← expect "-" s;
  '(d, s) ← field_day s;
  s ← spaces s;
  '(h, s) ← field2 s;
  s ← expect ":" s;
  '(mi, s) ← field2 s;
  s ← expect ":" s;
  '(se, s) ← field2 s;
  if String.eqb s ""
     && in_range 1 9999 y && in_range 1 12 mo
     && in_range 1 (days_in_month y mo) d
     && in_range 0 23 h && in_range 0 59 mi && in_range 0 59 se
  then Some (mk_datetime y mo d h mi se)
  else None.

End PyParse.

(** ** The tax schedule as the specification words it

    Section 4.2: a non-positive net position owes nothing; otherwise one
    rate, chosen by brackets that include their upper bound, applies to the
    whole net amount, and the product is rounded to two decimals. *)

Module Spec.

Import Num.
Local Open Scope Q_scope.



End Spec.

(** ** Sample ledgers and rows *)

Module Samples.

Import Engine.
Local Open Scope Q_scope.

Definition noon : datetime := mk_datetime 2024 1 15 12 0 0.

Definition buy (a : string) (qty price : Q) : Transaction :=
  mk_tx noon a "buy" qty price 0.
Definition sell (a : string) (qty price : Q) : Transaction :=
  mk_tx noon a "sell" qty price 0.

(** Two lots, then a sale of one unit. *)
Definition two_lots : list Transaction :=
  [buy "BTC" 1 100; buy "BTC" 1 200].

(** One lot of three units. *)
Definition one_lot : list Transaction := [buy "ETH" 3 30].

(** A staking reward as an exchange reports it: a positive change. *)
Definition reward_row : gmap string string :=
  list_to_map [("UTC_Time", "2024-01-15 12:00:00"); ("Coin", "ADA");
               ("Operation", "Staking Rewards"); ("Change", "0.5")].

(** A trade row without any price column. *)
Definition no_price_row : gmap string string :=
  list_to_map [("Date(UTC)", "2024-01-15 12:00:00"); ("Coin", "BTC");
               ("Change", "-0.25")].

(** The same row with a price cell that is not a number. *)
Definition bad_price_row : gmap string string :=
  <["Price" := "n/a"]> no_price_row.

End Samples.

(** ** Measures of an inventory and of a ledger *)

Module Measures.

Import Num Engine.
Local Open Scope Q_scope.

(** The quantity held by a lot list. *)
Definition total_quantity (ls : list Lot) : Q :=
  foldr (fun l acc => quantity l + acc) 0 ls.

(** A lot that holds a positive quantity, and an inventory of such
    lots. *)
Definition lot_positive (l : Lot) : Prop := 0 < quantity l.

Definition inventory_positive (s : SimpleTaxEngine) : Prop :=
  map_Forall (fun _ ls => Forall lot_positive ls) (lots s).

(** What the loop keeps of a lot whatever it does to its quantity. *)
Definition lot_identity (l : Lot) : datetime * Q :=
  (lot_date l, cost_per_unit l).

Definition is_buy (tx : Transaction) : bool := String.eqb (tx_type tx) "buy".
Definition is_sell (tx : Transaction) : bool := String.eqb (tx_type tx) "sell".


End Measures.

(** ** The [/calculate] handler (lines 239-320)

    The handler looks at the request body through [get], truth tests,
    [str.lower] and [io.StringIO] only, so a JSON value is a string or
    some other value of which the truth value alone matters.  The
    response is its status with the message or the summary; the
    [timestamp] field, a reading of the clock, is left out, and so is the
    text of the message of a 500 response, which is the text of the
    exception. *)

Module Webhook.

Import PyStr Engine Normalizer.

Inductive jvalue :=
| JStr (s : string)
| JOther (truth : bool).   (* null, a number, a boolean, a list, an object *)

#[global] Instance jvalue_eq_dec : EqDecision jvalue.
Proof. solve_decision. Defined.

(** Truth value of [data.get(key)]. *)
Definition jtruthy (o : option jvalue) : bool :=
  match o with
  | Some (JStr s) => negb (String.eqb s "")
  | Some (JOther b) => b
  | None => false
  end.

(** What [request.get_json()] does. *)
Inductive body :=
| NotJson                                (* it raises *)
| NonObject (truth : bool)               (* a value that is not an object *)
| Object (fields : gmap string jvalue).

Inductive response :=
| BadRequest (message : string)          (* status 400 *)
| ServerError                            (* status 500 *)
| Success (email nombre nif : jvalue) (exchange : string)
          (summary : Summary).           (* status 200 *)

Definition status (r : response) : nat :=
  match r with
  | BadRequest _ => 400
  | ServerError => 500
  | Success _ _ _ _ _ => 200
  end.

Section Handler.

(** [reader s] is the list of rows that [csv.DictReader(io.StringIO(s))]
    yields, or [None] where reading raises. *)
Variable reader : string -> option (list Row).
Variable float : string -> option Q.
Variable strptime : string -> option datetime.

(** [str_lower s] is Python's [s.lower()], which lower-cases every
    cased character of the text, not the ASCII letters only. *)
Variable str_lower : string -> string.

(** [parse_binance_csv] (lines 159-227).  A content that is not a string
    makes [io.StringIO] raise inside the outer [try], as a reading error
    does: the result is the empty list. *)
Definition parse_binance_csv (csv_content : jvalue) : list Transaction :=
  match csv_content with
  | JStr s =>
      match reader s with
      | Some rows => parse_binance_rows float strptime rows
      | None => []
      end
  | JOther _ => []
  end.

(** [data.get('exchange', 'binance').lower()] (line 269): [None] where
    the value is present and has no [lower]. *)
Definition exchange_of (data : gmap string jvalue) : option string :=
  match data !! "exchange" with
  | None => Some (str_lower "binance")
  | Some (JStr s) => Some (str_lower s)
  | Some (JOther _) => None
  end.

(** The message of lines 275-278. *)
Definition missing_fields : string :=
  "Missing required fields: email, nif, nombre, csv_content".

(** [calculate] (lines 255-320). *)
Definition calculate (b : body) : response :=
  match b with
  | NotJson => ServerError
  | NonObject false => BadRequest "No JSON data provided"
  | NonObject true => ServerError   (* [data.get] raises *)
  | Object data =>
      if bool_decide (data = ∅) then BadRequest "No JSON data provided"
      else
        match exchange_of data with
        | None => ServerError
        | Some exchange =>
            match data !! "email", data !! "nif", data !! "nombre",
                  data !! "csv_content" with
            | Some email, Some nif, Some nombre, Some csv_content =>
                if jtruthy (Some email) && jtruthy (Some nif)
                   && jtruthy (Some nombre) && jtruthy (Some csv_content)
                then
                  (* both branches of line 281 call the same parser *)
                  let transactions :=
                    if String.eqb exchange "binance"
                    then parse_binance_csv csv_content
                    else parse_binance_csv csv_content in
                  match transactions with
                  | [] => BadRequest "No transactions parsed from CSV"
                  | _ :: _ =>
                      let engine :=
                        fold_left (fun s tx => add_transaction tx s)
                                  transactions init in
                      Success email nombre nif exchange (get_summary engine)
                  end
                else BadRequest missing_fields
            | _, _, _, _ => BadRequest missing_fields
            end
        end
  end.

End Handler.

End Webhook.

(** ** The engine on binary64 floats

    The same classes as in [Engine], with every amount a binary64 float,
    as the transactions of [parse_binance_csv] have them: [+], [-], [*],
    [/], [abs] and the comparisons are the IEEE 754 operations that
    Python's [float] uses (round to nearest, ties to even; a comparison
    with a NaN is false).  This is the model for what depends on the
    floats themselves: rounding, overflow and NaN.  The integer [0] that
    the code uses as a start value or as a result is the float [0]; the
    two compare equal and add alike. *)

Module FloatEngine.

Import Num.
Local Open Scope float_scope.
#[local] Set Warnings "-inexact-float".

(** The rational value of the finite float with mantissa [m] and
    exponent [e]. *)
Definition exact (m : positive) (e : Z) : Q :=
  if (0 <=? e)%Z then inject_Z (Zpos m * 2 ^ e)
  else Qmake (Zpos m) (Z.to_pos (2 ^ (- e))).

(** Python's [round(x, ndigits)] on a float, for [ndigits >= 0]: the
    exact value of [x] is rounded to [ndigits] decimals, ties to even,
    and the float nearest to that decimal is returned; zeros, infinities
    and NaN are returned as they are, and a value that rounds to zero
    keeps its sign. *)
Definition round (x : float) (ndigits : nat) : float :=
  match Prim2SF x with
  | S754_finite s m e =>
      let p := Z.to_pos (10 ^ Z.of_nat ndigits) in
      match round_half_even (exact m e * inject_Z (Zpos p)) with
      | Zpos n =>
          SF2Prim (SF64div (S754_finite s n 0) (S754_finite false p 0))
      | _ => if s then neg_zero else zero
      end
  | _ => x
  end.

(** class [Transaction] (lines 29-45). *)
Record Transaction := mk_tx {
  date : Engine.datetime;
  asset : string;
  tx_type : string;
  amount : float;
  price_eur : float;
  fee_eur : float
}.

(** [Transaction.total_cost] (lines 40-42). *)
Definition total_cost (tx : Transaction) : float :=
  (amount tx * price_eur tx) + fee_eur tx.

(** The dictionaries appended to [self.lots[asset]] (lines 80-85). *)
Record Lot := mk_lot {
  quantity : float;
  cost_eur_total : float;
  cost_per_unit : float;
  lot_date : Engine.datetime
}.

(** The attributes of a [SimpleTaxEngine] object (lines 54-60). *)
Record SimpleTaxEngine := mk_engine {
  transactions : list Transaction;
  lots : gmap string (list Lot);
  gains : float;
  losses : float;
  staking_income : float;
  errors : list string
}.

(** [SimpleTaxEngine.__init__]. *)
Definition init : SimpleTaxEngine :=
  {| transactions := []; lots := ∅; gains := 0; losses := 0;
     staking_income := 0; errors := [] |}.

Definition set_transactions v (s : SimpleTaxEngine) :=
  {| transactions := v; lots := lots s; gains := gains s;
     losses := losses s; staking_income := staking_income s;
     errors := errors s |}.
Definition set_lots v (s : SimpleTaxEngine) :=
  {| transactions := transactions s; lots := v; gains := gains s;
     losses := losses s; staking_income := staking_income s;
     errors := errors s |}.
Definition set_gains v (s : SimpleTaxEngine) :=
  {| transactions := transactions s; lots := lots s; gains := v;
     losses := losses s; staking_income := staking_income s;
     errors := errors s |}.
Definition set_losses v (s : SimpleTaxEngine) :=
  {| transactions := transactions s; lots := lots s; gains := gains s;
     losses := v; staking_income := staking_income s;
     errors := errors s |}.
Definition set_staking_income v (s : SimpleTaxEngine) :=
  {| transactions := transactions s; lots := lots s; gains := gains s;
     losses := losses s; staking_income := v; errors := errors s |}.
Definition set_errors v (s : SimpleTaxEngine) :=
  {| transactions := transactions s; lots := lots s; gains := gains s;
     losses := losses s; staking_income := staking_income s;
     errors := v |}.

(** [_process_buy] (lines 75-85).  The division is reached with a
    positive amount only, so it never divides by zero. *)
Definition new_lot (tx : Transaction) : Lot :=
  {| quantity := amount tx;
     cost_eur_total := total_cost tx;
     cost_per_unit :=
       if 0 <? amount tx then total_cost tx / amount tx else 0;
     lot_date := date tx |}.

Definition _process_buy (tx : Transaction) (s : SimpleTaxEngine)
  : SimpleTaxEngine :=
  let cur := default [] (lots s !! asset tx) in
  set_lots (<[asset tx := cur ++ [new_lot tx]]> (lots s)) s.

(** The state of the [while] loop of [_process_sell] (lines 97-111). *)
Record SellLoop := mk_loop {
  loop_lots : list Lot;
  remaining : float;
  cost_basis : float
}.

(** The loop (lines 97-111), structural in the lot list as in [Engine]. *)
Fixpoint sell_loop (ls : list Lot) (rem cb : float) : SellLoop :=
  match ls with
  | [] => mk_loop [] rem cb
  | lot :: rest =>
      if 0 <? rem then
        if quantity lot <=? rem then
          sell_loop rest (rem - quantity lot) (cb + cost_eur_total lot)
        else
          let portion_cost := cost_per_unit lot * rem in
          mk_loop
            ({| quantity := quantity lot - rem;
                cost_eur_total := cost_eur_total lot - portion_cost;
                cost_per_unit := cost_per_unit lot;
                lot_date := lot_date lot |} :: rest)
            0 (cb + portion_cost)
      else mk_loop ls rem cb
  end.

(** The guard of line 89. *)
Definition no_lots (s : SimpleTaxEngine) (a : string) : bool :=
  match lots s !! a with
  | None | Some [] => true
  | Some (_ :: _) => false
  end.

(** Lines 93-111. *)
Definition run_sell_loop (tx : Transaction) (s : SimpleTaxEngine)
  : SellLoop :=
  sell_loop (default [] (lots s !! asset tx)) (amount tx) 0.

(** Line 114, with [proceeds] of line 94. *)
Definition realized_gain (tx : Transaction) (s : SimpleTaxEngine) : float :=
  let proceeds := amount tx * price_eur tx in
  proceeds - cost_basis (run_sell_loop tx s) - fee_eur tx.

(** [_process_sell] (lines 87-119). *)
Definition _process_sell (tx : Transaction) (s : SimpleTaxEngine)
  : SimpleTaxEngine :=
  if no_lots s (asset tx) then
    set_errors (errors s ++ [Engine.sale_error (asset tx)]) s
  else
    let r := run_sell_loop tx s in
    let s1 := set_lots (<[asset tx := loop_lots r]> (lots s)) s in
    let gain := realized_gain tx s in
    if 0 <? gain then set_gains (gains s1 + gain) s1
    else set_losses (losses s1 + gain) s1.

(** [_process_staking] (lines 121-123). *)
Definition _process_staking (tx : Transaction) (s : SimpleTaxEngine)
  : SimpleTaxEngine :=
  set_staking_income (staking_income s + amount tx * price_eur tx) s.

(** [add_transaction] (lines 62-73). *)
Definition add_transaction (tx : Transaction) (s : SimpleTaxEngine)
  : SimpleTaxEngine :=
  let s0 := set_transactions (transactions s ++ [tx]) s in
  if String.eqb (tx_type tx) "buy" then _process_buy tx s0
  else if String.eqb (tx_type tx) "sell" then _process_sell tx s0
  else if String.eqb (tx_type tx) "staking" then _process_staking tx s0
  else s0.

(** [_estimate_tax] (lines 139-153). *)
Definition _estimate_tax (net_position : float) : float :=
  let rate :=
    if net_position <=? 6000 then 0.19
    else if net_position <=? 50000 then 0.21
    else if net_position <=? 200000 then 0.23
    else 0.27 in
  if 0 <? net_position then round (net_position * rate) 2 else 0.

(** The dictionary returned by [get_summary] (lines 125-137). *)
Record Summary := mk_summary {
  sum_gains : float;
  sum_losses : float;
  sum_net_position : float;
  sum_staking_income : float;
  sum_total_transactions : nat;
  sum_errors : list string;
  sum_estimated_tax_liability : float
}.

Definition get_summary (s : SimpleTaxEngine) : Summary :=
  let net_position := gains s + losses s in
  {| sum_gains := round (gains s) 2;
     sum_losses := round (abs (losses s)) 2;
     sum_net_position := round net_position 2;
     sum_staking_income := round (staking_income s) 2;
     sum_total_transactions := length (transactions s);
     sum_errors := errors s;
     sum_estimated_tax_liability := _estimate_tax net_position |}.

(** The engine run of [calculate] (lines 295-301). *)
Definition run_engine (txs : list Transaction) : SimpleTaxEngine :=
  fold_left (fun s tx => add_transaction tx s) txs init.

Definition run_ledger (txs : list Transaction) : Summary :=
  get_summary (run_engine txs).

(** The schedule as section 4.2 words it: nothing for a net position
    [<= 0], otherwise the bracket rate on the whole amount, rounded. *)
Definition tax_estimate_spec (net : float) : float :=
  if net <=? 0 then 0
  else
    round (net * (if net <=? 6000 then 0.19
                  else if net <=? 50000 then 0.21
                  else if net <=? 200000 then 0.23
                  else 0.27)) 2.

(** Sample transactions. *)
Definition buy (a : string) (qty price : float) : Transaction :=
  mk_tx Samples.noon a "buy" qty price 0.
Definition sell (a : string) (qty price : float) : Transaction :=
  mk_tx Samples.noon a "sell" qty price 0.

End FloatEngine.

(** ** Signs of binary64 values

    Predicates on the values of [spec_float], the specification of the
    primitive floats, used to state what the sign of a sum is. *)

Module FloatSign.

(** A result that carries the sign [s]: a zero, a finite number or an
    infinity of that sign, and not a NaN. *)
Definition signed (s : bool) (r : spec_float) : Prop :=
  match r with
  | S754_zero s' | S754_infinity s' | S754_finite s' _ _ => s' = s
  | S754_nan => False
  end.

(** [0 <= r], [r <= 0] and "not [0 < r]", which a NaN satisfies too. *)
Definition nonneg (r : spec_float) : Prop := SFleb (S754_zero false) r = true.
Definition nonpos (r : spec_float) : Prop := SFleb r (S754_zero false) = true.
Definition notpos (r : spec_float) : Prop := SFltb (S754_zero false) r = false.

End FloatSign.

(** * Properties *)

Import Num PyStr Engine Normalizer.
Local Open Scope Q_scope.

(** ** Boolean comparisons *)

Lemma Qltb_lt x y : Qltb x y = true <-> x < y.
Proof.
  unfold Qltb. rewrite negb_true_iff. split.
  - intros H. apply Qnot_le_lt. intros Hle.
    apply Qle_bool_iff in Hle. congruence.
  - intros H. destruct (Qle_bool y x) eqn:E; [|reflexivity].
    apply Qle_bool_iff in E. apply Qlt_not_le in H. contradiction.
Qed.

Lemma Qltb_ge x y : Qltb x y = false <-> y <= x.
Proof. unfold Qltb. rewrite negb_false_iff. apply Qle_bool_iff. Qed.

Lemma Qleb_le x y : Qleb x y = true <-> x <= y.
Proof. apply Qle_bool_iff. Qed.

Lemma Qleb_gt x y : Qleb x y = false <-> y < x.
Proof.
  unfold Qleb. split.
  - intros H. apply Qnot_le_lt. intros Hle.
    apply Qle_bool_iff in Hle. congruence.
  - intros H. destruct (Qle_bool x y) eqn:E; [|reflexivity].
    apply Qle_bool_iff in E. apply Qlt_not_le in H. contradiction.
Qed.


(** Turn the boolean tests met in a goal or hypothesis into order facts. *)
Ltac order_facts :=
  repeat match goal with
  | H : Qltb _ _ = true |- _ => apply Qltb_lt in H
  | H : Qltb _ _ = false |- _ => apply Qltb_ge in H
  | H : Qleb _ _ = true |- _ => apply Qleb_le in H
  | H : Qleb _ _ = false |- _ => apply Qleb_gt in H
  end.

(** ** The engine: record plumbing *)

Lemma add_transaction_transactions tx s :
  transactions (add_transaction tx s) = transactions s ++ [tx].
Proof.
  unfold add_transaction, _process_buy, _process_sell, _process_staking.
  repeat match goal with |- context [if ?b then _ else _] => destruct b end;
    reflexivity.
Qed.

Lemma run_engine_snoc txs tx :
  run_engine (txs ++ [tx]) = add_transaction tx (run_engine txs).
Proof. unfold run_engine. now rewrite fold_left_app. Qed.

Lemma run_engine_count txs :
  length (transactions (run_engine txs)) = length txs.
Proof.
  induction txs as [|tx txs IH] using rev_ind; [reflexivity|].
  rewrite run_engine_snoc, add_transaction_transactions.
  rewrite !length_app, IH. reflexivity.
Qed.

(** What a sale does when the guard of line 89 fires. *)
Lemma process_sell_no_lots tx s :
  no_lots s (asset tx) = true ->
  _process_sell tx s = set_errors (errors s ++ [sale_error (asset tx)]) s.
Proof. intros H. unfold _process_sell. now rewrite H. Qed.

Lemma no_lots_set_transactions v s a :
  no_lots (set_transactions v s) a = no_lots s a.
Proof. reflexivity. Qed.

Lemma add_sell_no_lots tx s :
  tx_type tx = "sell" -> no_lots s (asset tx) = true ->
  add_transaction tx s =
  set_errors (errors s ++ [sale_error (asset tx)])
             (set_transactions (transactions s ++ [tx]) s).
Proof.
  intros Hty Hno. unfold add_transaction. rewrite Hty. simpl.
  now rewrite process_sell_no_lots.
Qed.

(** ** Substrings *)

Lemma prefix_refl s : String.prefix s s = true.
Proof.
  induction s as [|c s IH]; [reflexivity|].
  simpl. destruct (ascii_dec c c); [exact IH | congruence].
Qed.

Lemma contains_unfold sub s :
  contains sub s =
  String.prefix sub s ||
  match s with EmptyString => false | String _ r => contains sub r end.
Proof. destruct s; reflexivity. Qed.

Lemma contains_refl s : contains s s = true.
Proof. rewrite contains_unfold, prefix_refl. reflexivity. Qed.

Lemma contains_app_r p s : contains s (p +:+ s) = true.
Proof.
  induction p as [|c p IH].
  - apply contains_refl.
  - change (String c p +:+ s) with (String c (p +:+ s)).
    rewrite contains_unfold, IH. apply orb_true_r.
Qed.

(** ** FIFO matching *)

(** The head lot is consumed whole when it fits in what is left to sell. *)
Lemma sell_loop_whole lot rest rem cb :
  0 < rem -> quantity lot <= rem ->
  sell_loop (lot :: rest) rem cb =
  sell_loop rest (rem - quantity lot) (cb + cost_eur_total lot).
Proof.
  intros Hrem Hq. simpl.
  apply Qltb_lt in Hrem. apply Qleb_le in Hq. now rewrite Hrem, Hq.
Qed.

(** The loop does not run when nothing is left to sell. *)
Lemma sell_loop_done ls rem cb :
  rem <= 0 -> sell_loop ls rem cb = mk_loop ls rem cb.
Proof.
  intros H. apply Qltb_ge in H. destruct ls; simpl; [reflexivity|].
  now rewrite H.
Qed.

(** C2: with two lots bought at 100 and then at 200 (one unit each, no
    fee), a sale of one unit at 150 is matched against the earlier lot:
    the loop's cost basis is 100, the later lot stays in the inventory
    untouched, and 50 is added to the gains (nothing to the losses). *)
Theorem fifo_matches_earlier_lot :
  let b1 := Samples.buy "BTC" 1 100 in
  let b2 := Samples.buy "BTC" 1 200 in
  let tx := Samples.sell "BTC" 1 150 in
  let s := run_engine [b1; b2] in
  let s' := add_transaction tx s in
  lots s !! "BTC" = Some [new_lot b1; new_lot b2] /\
  cost_eur_total (new_lot b1) == 100 /\
  cost_eur_total (new_lot b2) == 200 /\
  cost_basis (sell_loop [new_lot b1; new_lot b2] (amount tx) 0) == 100 /\
  lots s' !! "BTC" = Some [new_lot b2] /\
  gains s == 0 /\ gains s' == 50 /\
  losses s' == losses s /\ losses s' == 0 /\
  errors s' = [].
Proof.
  cbv zeta. repeat split; vm_compute; reflexivity.
Qed.

(** The loop on a head lot larger than what is left to sell. *)
Lemma sell_loop_partial lot rest rem cb :
  0 < rem -> rem < quantity lot ->
  sell_loop (lot :: rest) rem cb =
  mk_loop
    ({| quantity := quantity lot - rem;
        cost_eur_total := cost_eur_total lot - cost_per_unit lot * rem;
        cost_per_unit := cost_per_unit lot;
        lot_date := lot_date lot |} :: rest)
    0 (cb + cost_per_unit lot * rem).
Proof.
  intros Hrem Hq. simpl. apply Qltb_lt in Hrem. apply Qleb_gt in Hq.
  now rewrite Hrem, Hq.
Qed.

(** C3: when the head lot holds more than what is left to sell, the loop
    charges [cost_per_unit * remaining] to the cost basis, lowers the
    lot's quantity by [remaining] and its total cost by the charged
    amount, keeps the lot at the head, and ends with nothing remaining.
    On the ledger "buy 3 at 30, sell 1 at 50" the lot is left with
    quantity 2 and total cost 60, and the realized gain is 20. *)
Theorem partial_lot_consumption :
  (forall (lot : Lot) (rest : list Lot) (rem cb : Q),
     0 < rem -> rem < quantity lot ->
     let r := sell_loop (lot :: rest) rem cb in
     cost_basis r = cb + cost_per_unit lot * rem /\
     remaining r = 0 /\
     exists lot',
       loop_lots r = lot' :: rest /\
       quantity lot' = quantity lot - rem /\
       cost_eur_total lot' = cost_eur_total lot - cost_per_unit lot * rem /\
       cost_per_unit lot' = cost_per_unit lot /\
       lot_date lot' = lot_date lot) /\
  (let s := run_engine Samples.one_lot in
   let tx := Samples.sell "ETH" 1 50 in
   let s' := add_transaction tx s in
   (exists l, lots s !! "ETH" = Some [l] /\
              quantity l == 3 /\ cost_eur_total l == 90 /\
              cost_per_unit l == 30) /\
   (exists l', lots s' !! "ETH" = Some [l'] /\
               quantity l' == 2 /\ cost_eur_total l' == 60 /\
               cost_per_unit l' == 30) /\
   realized_gain tx s == 20 /\
   gains s' == gains s + 20 /\ gains s' == 20 /\ losses s' == 0 /\
   errors s' = []).
Proof.
  split.
  - intros lot rest rem cb Hrem Hq. cbv zeta.
    rewrite (sell_loop_partial lot rest rem cb Hrem Hq). cbn.
    split; [reflexivity|]. split; [reflexivity|].
    eexists. split; [reflexivity|]. cbn. repeat split.
  - cbv zeta. split; [|split].
    + eexists. split; [vm_compute; reflexivity|].
      repeat split; vm_compute; reflexivity.
    + eexists. split; [vm_compute; reflexivity|].
      repeat split; vm_compute; reflexivity.
    + repeat split; vm_compute; reflexivity.
Qed.

Lemma partial_lot_consumption_witness :
  let lot := new_lot (Samples.buy "ETH" 3 30) in
  0 < 1 /\ 1 < quantity lot /\
  cost_basis (sell_loop [lot] 1 0) = 0 + cost_per_unit lot * 1 /\
  remaining (sell_loop [lot] 1 0) = 0.
Proof.
  cbv zeta.
  assert (H0 : 0 < 1) by reflexivity.
  assert (H1 : 1 < quantity (new_lot (Samples.buy "ETH" 3 30)))
    by reflexivity.
  destruct partial_lot_consumption as [Hloop _].
  destruct (Hloop (new_lot (Samples.buy "ETH" 3 30)) [] 1 0 H0 H1)
    as (Hcb & Hrem & _).
  exact (conj H0 (conj H1 (conj Hcb Hrem))).
Defined.

(** ** Sales without inventory *)

Lemma no_lots_true s a :
  no_lots s a = true <-> lots s !! a = None \/ lots s !! a = Some [].
Proof.
  unfold no_lots. destruct (lots s !! a) as [[|l ls]|]; split; intros H;
    try reflexivity; try discriminate; auto.
  destruct H; discriminate.
Qed.

(** C7: a sale of an asset that has no key in the inventory, or an empty
    lot list, leaves gains and losses as they were, appends exactly one
    message to the error log, a message that contains the asset's name,
    and raises the transaction count by one. *)
Theorem sell_without_purchase (tx : Transaction) (s : SimpleTaxEngine) :
  tx_type tx = "sell" ->
  lots s !! asset tx = None \/ lots s !! asset tx = Some [] ->
  let s' := add_transaction tx s in
  gains s' = gains s /\
  losses s' = losses s /\
  errors s' = errors s ++ [sale_error (asset tx)] /\
  length (errors s') = S (length (errors s)) /\
  contains (asset tx) (sale_error (asset tx)) = true /\
  length (transactions s') = S (length (transactions s)) /\
  sum_total_transactions (get_summary s') =
    S (sum_total_transactions (get_summary s)).
Proof.
  intros Hty Hno. apply no_lots_true in Hno. cbv zeta.
  rewrite (add_sell_no_lots tx s Hty Hno).
  unfold get_summary, set_errors, set_transactions; cbn [gains losses errors
    transactions sum_total_transactions].
  rewrite !length_app. cbn [length].
  repeat split; try lia.
  apply contains_app_r.
Qed.

Lemma sell_without_purchase_witness :
  let tx := Samples.sell "DOGE" 5 10 in
  let s' := add_transaction tx init in
  gains s' = 0 /\ losses s' = 0 /\
  errors s' = ["Venta sin compra previa: DOGE"] /\
  length (transactions s') = 1%nat.
Proof.
  cbv zeta.
  destruct (sell_without_purchase (Samples.sell "DOGE" 5 10) init)
    as (Hg & Hl & He & _ & _ & Ht & _).
  - reflexivity.
  - left. reflexivity.
  - exact (conj Hg (conj Hl (conj He Ht))).
Defined.

(** C10: on that path only the error log and the transaction list change,
    each by one entry at its end; gains, losses, staking income and the
    whole inventory map (so every asset's lots) are what they were. *)
Theorem sell_without_inventory_frame (tx : Transaction) (s : SimpleTaxEngine) :
  tx_type tx = "sell" ->
  lots s !! asset tx = None \/ lots s !! asset tx = Some [] ->
  let s' := add_transaction tx s in
  errors s' = errors s ++ [sale_error (asset tx)] /\
  transactions s' = transactions s ++ [tx] /\
  gains s' = gains s /\
  losses s' = losses s /\
  staking_income s' = staking_income s /\
  lots s' = lots s /\
  (forall a, lots s' !! a = lots s !! a).
Proof.
  intros Hty Hno. apply no_lots_true in Hno. cbv zeta.
  rewrite (add_sell_no_lots tx s Hty Hno). simpl.
  repeat split.
Qed.

Lemma sell_without_inventory_frame_witness :
  let s := run_engine (Samples.two_lots ++ [Samples.sell "BTC" 2 150]) in
  let tx := Samples.sell "BTC" 1 150 in
  let s' := add_transaction tx s in
  lots s !! "BTC" = Some [] /\
  lots s' = lots s /\ gains s' = gains s /\ losses s' = losses s /\
  staking_income s' = staking_income s /\
  errors s' = errors s ++ ["Venta sin compra previa: BTC"].
Proof.
  cbv zeta.
  assert (He : lots (run_engine
                       (Samples.two_lots ++ [Samples.sell "BTC" 2 150]))
               !! "BTC" = Some []) by (vm_compute; reflexivity).
  destruct (sell_without_inventory_frame (Samples.sell "BTC" 1 150)
              (run_engine (Samples.two_lots ++ [Samples.sell "BTC" 2 150])))
    as (Herr & _ & Hg & Hl & Hs & Hlots & _).
  - reflexivity.
  - right. exact He.
  - exact (conj He (conj Hlots (conj Hg (conj Hl (conj Hs Herr))))).
Defined.

(** ** Sales that exhaust the inventory *)

(** A sale that finds at least one lot never writes to the error log,
    whatever quantity the loop leaves unmatched. *)
Lemma sell_with_lots_errors tx s :
  no_lots s (asset tx) = false -> errors (_process_sell tx s) = errors s.
Proof.
  intros H. unfold _process_sell. rewrite H.
  destruct (Qltb 0 (realized_gain tx s)); reflexivity.
Qed.

(** C1 (the code at an oversold ledger): one unit bought at 100, two units
    sold at 150.  The loop consumes the only lot (cost basis 100) and
    stops with one unit unmatched; the error log stays empty and the whole
    proceeds less the matched cost, 200, are booked as gain.  The same
    sale on a fresh engine is reported. *)
Theorem oversell_remainder_unreported :
  let s := run_engine [Samples.buy "BTC" 1 100] in
  let tx := Samples.sell "BTC" 2 150 in
  let r := run_sell_loop tx s in
  let s' := add_transaction tx s in
  loop_lots r = [] /\ remaining r == 1 /\ cost_basis r == 100 /\
  lots s' !! "BTC" = Some [] /\
  gains s' == 200 /\ losses s' == 0 /\
  errors s' = [] /\
  errors (add_transaction tx init) = [sale_error "BTC"].
Proof.
  cbv zeta. repeat split; vm_compute; reflexivity.
Qed.

(** ** Rounding *)




(** ** The tax estimate *)


(** ** The empty ledger and the fold *)

(** C8: the run over no transactions is the summary of a fresh engine:
    every amount is 0, the count is 0, the error list is empty and the
    estimate is 0.  The run over any list is a fold of a total function
    from a fixed start: it has exactly one result, it counts every
    transaction, and a longer list continues the run of its prefix. *)
Theorem empty_ledger_summary :
  (let r := run_ledger [] in
   sum_gains r == 0 /\ sum_losses r == 0 /\ sum_net_position r == 0 /\
   sum_staking_income r == 0 /\ sum_total_transactions r = 0%nat /\
   sum_errors r = [] /\ sum_estimated_tax_liability r = 0) /\
  (forall txs, exists r,
     run_ledger txs = r /\ forall r', run_ledger txs = r' -> r' = r) /\
  (forall txs, sum_total_transactions (run_ledger txs) = length txs) /\
  (forall txs tx,
     run_engine (txs ++ [tx]) = add_transaction tx (run_engine txs)).
Proof.
  split; [|split; [|split]].
  - cbv zeta. repeat split; vm_compute; reflexivity.
  - intros txs. exists (run_ledger txs). split; [reflexivity|].
    intros r' <-. reflexivity.
  - intros txs. apply run_engine_count.
  - apply run_engine_snoc.
Qed.

(** ** Classification of rows *)

(** A positive change is a buy whatever the label says. *)
Lemma classify_positive operation change :
  0 < change -> classify operation change = "buy".
Proof.
  intros H. unfold classify. apply Qltb_lt in H. rewrite H.
  now rewrite orb_true_r.
Qed.

(** A negative change is a sell unless the label says buy. *)
Lemma classify_negative operation change :
  change < 0 -> contains "buy" (lower operation) = false ->
  classify operation change = "sell".
Proof.
  intros H Hb. unfold classify. rewrite Hb.
  assert (Hp : Qltb 0 change = false) by (apply Qltb_ge; lra).
  apply Qltb_lt in H. rewrite Hp, H. now rewrite orb_true_r.
Qed.

(** The staking branch is reached by a zero change only. *)
Lemma classify_staking operation change :
  classify operation change = "staking" ->
  change == 0 /\
  contains "buy" (lower operation) = false /\
  contains "sell" (lower operation) = false /\
  (contains "stake" (lower operation) = true \/
   contains "reward" (lower operation) = true).
Proof.
  unfold classify.
  destruct (contains "buy" (lower operation)); [discriminate|].
  destruct (Qltb 0 change) eqn:Hp; [discriminate|].
  destruct (contains "sell" (lower operation)); [discriminate|].
  destruct (Qltb change 0) eqn:Hn; [discriminate|].
  simpl. order_facts.
  destruct (contains "stake" (lower operation)) eqn:Hs;
    [intros _; repeat split; auto; lra|].
  destruct (contains "reward" (lower operation)) eqn:Hr;
    [intros _; repeat split; auto; lra | discriminate].
Qed.

(** C4 (the code at a reward row): the row labelled "Staking Rewards" with
    change 0.5 has a label that contains "reward" and neither "buy" nor
    "sell"; the normalizer emits it as a 'buy' of 0.5, and the
    engine opens a lot for it and books no staking income.  The same
    label is classified 'staking' only at change 0. *)
Theorem reward_row_classified_buy :
  let op := operation_field Samples.reward_row in
  op = "Staking Rewards" /\
  lower op = "staking rewards" /\
  contains "reward" (lower op) = true /\
  contains "buy" (lower op) = false /\
  contains "sell" (lower op) = false /\
  (exists tx,
     parse_row PyParse.float PyParse.strptime Samples.reward_row = Parsed tx /\
     tx_type tx = "buy" /\ asset tx = "ADA" /\ amount tx == 1 # 2 /\
     staking_income (run_engine [tx]) == 0 /\
     lots (run_engine [tx]) !! "ADA" = Some [new_lot tx]) /\
  classify op (1 # 2) = "buy" /\
  classify op (- (1 # 2)) = "sell" /\
  classify op 0 = "staking".
Proof.
  cbv zeta.
  split; [vm_compute; reflexivity|].
  split; [vm_compute; reflexivity|].
  split; [vm_compute; reflexivity|].
  split; [vm_compute; reflexivity|].
  split; [vm_compute; reflexivity|].
  split.
  - eexists. split; [vm_compute; reflexivity|].
    repeat split; vm_compute; reflexivity.
  - repeat split; vm_compute; reflexivity.
Qed.

(** ** The price field *)

Lemma truthy_some s : s <> "" -> truthy (Some s) = true.
Proof.
  intros H. simpl. destruct (String.eqb_spec s ""); [contradiction|reflexivity].
Qed.

Lemma price_field_absent (row : Row) :
  row !! "Price" = None -> row !! "Value" = None ->
  truthy (price_field row) = false.
Proof. intros H1 H2. unfold price_field, py_or. now rewrite H1, H2. Qed.

Section PriceField.

Variable float : string -> option Q.
Variable strptime : string -> option datetime.

(** With the three required fields resolved and parsed, the row's
    outcome is decided by the price alone. *)
Lemma parse_row_required row ds cn cs dt change :
  date_field row = Some ds -> ds <> "" ->
  coin_field row = Some cn -> cn <> "" ->
  change_field row = Some cs -> cs <> "" ->
  strptime (before_dot ds) = Some dt ->
  float cs = Some change ->
  parse_row float strptime row =
  match parse_price float row with
  | None => Failed
  | Some price =>
      Parsed {| date := dt; asset := cn;
                tx_type := classify (operation_field row) change;
                amount := Qabs change; price_eur := price; fee_eur := 0 |}
  end.
Proof.
  intros Hd Hdn Hc Hcn Hq Hqn Hdt Hch. unfold parse_row.
  rewrite Hd, Hc, Hq, !truthy_some by assumption. simpl.
  now rewrite Hdt, Hch.
Qed.

Lemma parse_price_absent row :
  truthy (price_field row) = false ->
  parse_price float row = float "0".
Proof.
  unfold parse_price, py_or_lit, truthy.
  destruct (price_field row) as [ps|]; [|reflexivity].
  destruct (String.eqb ps ""); [reflexivity|discriminate].
Qed.

Lemma parse_price_present row ps :
  price_field row = Some ps -> ps <> "" ->
  parse_price float row = float ps.
Proof.
  intros H Hne. unfold parse_price, py_or_lit. rewrite H.
  destruct (String.eqb_spec ps ""); [contradiction|].
  destruct (String.eqb_spec ps ""); [contradiction|reflexivity].
Qed.

(** C5, amended: take a row whose timestamp, asset and signed quantity
    are present and parse.  If no price column holds a non-empty cell,
    the row is emitted with price 0 (the text '0' is parsed).  If the
    price cell is non-empty and parses, the row is emitted with that
    price.  If it is non-empty and does not parse, the row is not
    emitted: the error is caught and the loop goes on. *)
Theorem price_default_or_drop (row : Row) (ds cn cs : string)
    (dt : datetime) (change : Q) :
  date_field row = Some ds -> ds <> "" ->
  coin_field row = Some cn -> cn <> "" ->
  change_field row = Some cs -> cs <> "" ->
  strptime (before_dot ds) = Some dt ->
  float cs = Some change ->
  float "0" = Some 0 ->
  (truthy (price_field row) = false ->
   exists tx, parse_row float strptime row = Parsed tx /\
              price_eur tx = 0 /\ asset tx = cn /\ date tx = dt /\
              amount tx = Qabs change /\ fee_eur tx = 0) /\
  (forall ps p, price_field row = Some ps -> ps <> "" ->
     float ps = Some p ->
     exists tx, parse_row float strptime row = Parsed tx /\
                price_eur tx = p) /\
  (forall ps, price_field row = Some ps -> ps <> "" ->
     float ps = None ->
     parse_row float strptime row = Failed /\
     forall rest, parse_binance_rows float strptime (row :: rest) =
                  parse_binance_rows float strptime rest).
Proof.
  intros Hd Hdn Hc Hcn Hq Hqn Hdt Hch Hzero.
  pose proof (parse_row_required row ds cn cs dt change
                Hd Hdn Hc Hcn Hq Hqn Hdt Hch) as Hrow.
  split; [|split].
  - intros Habs. rewrite (parse_price_absent row Habs), Hzero in Hrow.
    eexists. split; [exact Hrow|]. repeat split.
  - intros ps p Hp Hne Hf.
    rewrite (parse_price_present row ps Hp Hne), Hf in Hrow.
    eexists. split; [exact Hrow|]. reflexivity.
  - intros ps Hp Hne Hf.
    rewrite (parse_price_present row ps Hp Hne), Hf in Hrow.
    split; [exact Hrow|]. intros rest. simpl. now rewrite Hrow.
Qed.

End PriceField.

Lemma price_default_or_drop_witness :
  exists tx,
    parse_row PyParse.float PyParse.strptime Samples.no_price_row = Parsed tx /\
    price_eur tx = 0 /\ asset tx = "BTC".
Proof.
  destruct (price_default_or_drop PyParse.float PyParse.strptime
              Samples.no_price_row "2024-01-15 12:00:00" "BTC" "-0.25"
              Samples.noon (- (25 # 100)))
    as [Habs _].
  - vm_compute; reflexivity.
  - discriminate.
  - vm_compute; reflexivity.
  - discriminate.
  - vm_compute; reflexivity.
  - discriminate.
  - vm_compute; reflexivity.
  - vm_compute; reflexivity.
  - vm_compute; reflexivity.
  - destruct Habs as (tx & Hrow & Hprice & Hasset & _).
    + vm_compute; reflexivity.
    + exists tx. exact (conj Hrow (conj Hprice Hasset)).
Defined.

(** C5 as stated fails: the row of [Samples.no_price_row] with the price
    cell "n/a" has a timestamp, an asset and a signed quantity that parse
    (the row without the cell is emitted), its price cell is not a
    number, and the row is dropped instead of being emitted with price
    0. *)
Lemma unparseable_price_row_dropped :
  let parse := parse_row PyParse.float PyParse.strptime in
  (exists tx, parse Samples.no_price_row = Parsed tx) /\
  date_field Samples.bad_price_row = date_field Samples.no_price_row /\
  coin_field Samples.bad_price_row = coin_field Samples.no_price_row /\
  change_field Samples.bad_price_row = change_field Samples.no_price_row /\
  price_field Samples.bad_price_row = Some "n/a" /\
  PyParse.float "n/a" = None /\
  parse Samples.bad_price_row = Failed /\
  parse_binance_rows PyParse.float PyParse.strptime
    [Samples.bad_price_row] = [] /\
  ~ (exists tx,
       parse Samples.bad_price_row = Parsed tx /\ price_eur tx == 0).
Proof.
  cbv zeta.
  assert (Hf : parse_row PyParse.float PyParse.strptime Samples.bad_price_row
               = Failed) by (vm_compute; reflexivity).
  split; [eexists; vm_compute; reflexivity|].
  repeat (split; [vm_compute; reflexivity|]).
  intros (tx & Htx & _). rewrite Hf in Htx. discriminate.
Qed.

(** * Further properties of the engine *)

Import Measures.

(** ** What each kind of transaction touches *)

Lemma type_eqb_neq (t u : string) : t <> u -> String.eqb t u = false.
Proof.
  intros H. destruct (String.eqb_spec t u); [contradiction|reflexivity].
Qed.

Lemma process_buy_lookup tx s a :
  lots (_process_buy tx s) !! a =
  if decide (asset tx = a)
  then Some (default [] (lots s !! asset tx) ++ [new_lot tx])
  else lots s !! a.
Proof. unfold _process_buy. simpl. apply lookup_insert. Qed.

Lemma process_sell_lots_other tx s a :
  a <> asset tx -> lots (_process_sell tx s) !! a = lots s !! a.
Proof.
  intros Hne. unfold _process_sell.
  destruct (no_lots s (asset tx)); [reflexivity|].
  destruct (Qltb 0 (realized_gain tx s)); simpl;
    now rewrite lookup_insert_ne by congruence.
Qed.

Lemma total_quantity_app l1 l2 :
  total_quantity (l1 ++ l2) == total_quantity l1 + total_quantity l2.
Proof.
  induction l1 as [|l l1 IH]; simpl; [ring|]. rewrite IH. ring.
Qed.

(** A buy queues one lot behind the asset's lots (a missing key counts as an
    empty queue) and touches nothing else. *)
Theorem buy_appends_lot (tx : Transaction) (s : SimpleTaxEngine) :
  tx_type tx = "buy" ->
  let s' := add_transaction tx s in
  lots s' !! asset tx =
    Some (default [] (lots s !! asset tx) ++ [new_lot tx]) /\
  total_quantity (default [] (lots s' !! asset tx)) ==
    total_quantity (default [] (lots s !! asset tx)) + amount tx /\
  (forall a, a <> asset tx -> lots s' !! a = lots s !! a) /\
  gains s' = gains s /\ losses s' = losses s /\
  staking_income s' = staking_income s /\ errors s' = errors s.
Proof.
  intros Hty. cbv zeta.
  replace (add_transaction tx s)
    with (_process_buy tx (set_transactions (transactions s ++ [tx]) s))
    by (unfold add_transaction; now rewrite Hty).
  set (s0 := set_transactions (transactions s ++ [tx]) s).
  assert (Hl : lots (_process_buy tx s0) !! asset tx
               = Some (default [] (lots s !! asset tx) ++ [new_lot tx])).
  { rewrite process_buy_lookup. now rewrite decide_True by reflexivity. }
  split; [exact Hl|]. split.
  - rewrite Hl.
    change (default [] (Some ?l)) with l.
    rewrite total_quantity_app. simpl. ring.
  - split; [|repeat split].
    intros a Hne. rewrite process_buy_lookup.
    now rewrite decide_False by congruence.
Qed.

Lemma buy_appends_lot_witness :
  let s := run_engine Samples.two_lots in
  let tx := Samples.buy "BTC" 2 300 in
  lots (add_transaction tx s) !! "BTC" =
  Some (default [] (lots s !! "BTC") ++ [new_lot tx]).
Proof.
  cbv zeta.
  destruct (buy_appends_lot (Samples.buy "BTC" 2 300)
              (run_engine Samples.two_lots)) as [H _].
  - reflexivity.
  - exact H.
Defined.

(** Apart from recording the transaction: gains, losses and the error log
    are touched by sells only, the inventory by buys and sells only and
    for their own asset only, the staking income by staking transactions
    only.  A transfer, or a type the engine does not know, is recorded
    and has no other effect. *)
Theorem add_transaction_frame (tx : Transaction) (s : SimpleTaxEngine) :
  let s' := add_transaction tx s in
  transactions s' = transactions s ++ [tx] /\
  (tx_type tx <> "sell" ->
     gains s' = gains s /\ losses s' = losses s /\ errors s' = errors s) /\
  (tx_type tx <> "buy" -> tx_type tx <> "sell" -> lots s' = lots s) /\
  (forall a, a <> asset tx -> lots s' !! a = lots s !! a) /\
  (tx_type tx <> "staking" -> staking_income s' = staking_income s).
Proof.
  cbv zeta. split; [apply add_transaction_transactions|].
  unfold add_transaction.
  destruct (String.eqb_spec (tx_type tx) "buy") as [Hb|Hb].
  { repeat split; try congruence.
    intros a Hne. rewrite process_buy_lookup.
    now rewrite decide_False by congruence. }
  destruct (String.eqb_spec (tx_type tx) "sell") as [Hs|Hs].
  { split; [congruence|]. split; [congruence|]. split.
    - intros a Hne. now rewrite process_sell_lots_other.
    - intros _. unfold _process_sell.
      destruct (no_lots _ _); [reflexivity|].
      destruct (Qltb 0 _); reflexivity. }
  destruct (String.eqb_spec (tx_type tx) "staking") as [Hk|Hk].
  { repeat split; congruence. }
  repeat split.
Qed.

Lemma add_transaction_frame_witness :
  let tx := mk_tx Samples.noon "BTC" "transfer" 1 100 0 in
  let s := run_engine Samples.two_lots in
  let s' := add_transaction tx s in
  lots s' = lots s /\ gains s' = gains s /\ losses s' = losses s /\
  errors s' = errors s /\ staking_income s' = staking_income s.
Proof.
  cbv zeta.
  destruct (add_transaction_frame
              (mk_tx Samples.noon "BTC" "transfer" 1 100 0)
              (run_engine Samples.two_lots))
    as (_ & Hsell & Hlots & _ & Hstake).
  destruct Hsell as (Hg & Hl & He); [discriminate|].
  exact (conj (Hlots ltac:(discriminate) ltac:(discriminate))
           (conj Hg (conj Hl (conj He (Hstake ltac:(discriminate)))))).
Defined.

(** The engine keeps the ledger as it came, in order. *)
Lemma run_engine_transactions txs : transactions (run_engine txs) = txs.
Proof.
  induction txs as [|tx txs IH] using rev_ind; [reflexivity|].
  now rewrite run_engine_snoc, add_transaction_transactions, IH.
Qed.

(** ** Staking income *)





(** ** The matching loop *)

(** The loop takes lots from the front only: the lot list splits into the
    lots consumed whole and the lots kept; of the kept lots at most the
    first is altered, and it keeps its date and its unit cost. *)
Theorem sell_loop_fifo (ls : list Lot) (rem cb : Q) :
  let r := sell_loop ls rem cb in
  exists consumed kept,
    ls = consumed ++ kept /\
    map lot_identity (loop_lots r) = map lot_identity kept /\
    tail (loop_lots r) = tail kept /\
    (rem <= 0 -> consumed = [] /\ loop_lots r = ls).
Proof.
  cbv zeta. revert rem cb.
  induction ls as [|lot rest IH]; intros rem cb; simpl.
  - exists [], []. repeat split; auto.
  - destruct (Qltb 0 rem) eqn:Hrem.
    + order_facts. destruct (Qleb (quantity lot) rem) eqn:Hq.
      * destruct (IH (rem - quantity lot) (cb + cost_eur_total lot))
          as (consumed & kept & Hls & Hid & Htl & _).
        exists (lot :: consumed), kept.
        split; [simpl; congruence|]. split; [exact Hid|].
        split; [exact Htl|]. intros Hle. lra.
      * exists [], (lot :: rest). repeat split; auto; lra.
    + exists [], (lot :: rest). repeat split; auto.
Qed.

Lemma sell_loop_fifo_witness :
  let ls := default [] (lots (run_engine Samples.two_lots) !! "BTC") in
  loop_lots (sell_loop ls 0 0) = ls.
Proof.
  cbv zeta.
  destruct (sell_loop_fifo
              (default [] (lots (run_engine Samples.two_lots) !! "BTC")) 0 0)
    as (consumed & kept & _ & _ & _ & H).
  apply H. apply Qle_refl.
Defined.

(** ** Lots keep a positive quantity *)

Lemma sell_loop_positive ls rem cb :
  Forall lot_positive ls ->
  Forall lot_positive (loop_lots (sell_loop ls rem cb)).
Proof.
  intros Hok. revert rem cb.
  induction Hok as [|lot rest Hq Hrest IH]; intros rem cb; simpl.
  - constructor.
  - destruct (Qltb 0 rem) eqn:H0.
    + destruct (Qleb (quantity lot) rem) eqn:Hle; order_facts.
      * apply IH.
      * simpl. constructor; [|exact Hrest].
        unfold lot_positive in *. simpl. lra.
    + simpl. constructor; assumption.
Qed.

Lemma inventory_positive_lookup s a :
  inventory_positive s -> Forall lot_positive (default [] (lots s !! a)).
Proof.
  intros H. destruct (lots s !! a) as [ls|] eqn:E; simpl; [|constructor].
  exact (H a ls E).
Qed.

Lemma add_transaction_inventory_positive tx s :
  inventory_positive s -> (tx_type tx = "buy" -> 0 < amount tx) ->
  inventory_positive (add_transaction tx s).
Proof.
  intros Hok Hbuy. unfold add_transaction.
  destruct (String.eqb_spec (tx_type tx) "buy") as [Hb|Hb].
  { unfold inventory_positive, _process_buy. simpl.
    apply map_Forall_insert_2; [|exact Hok].
    apply Forall_app. split; [apply inventory_positive_lookup; exact Hok|].
    constructor; [exact (Hbuy Hb) | constructor]. }
  destruct (String.eqb (tx_type tx) "sell").
  { unfold _process_sell. simpl.
    destruct (no_lots _ _); [exact Hok|].
    assert (H : map_Forall (fun _ ls => Forall lot_positive ls)
                  (<[asset tx := loop_lots (run_sell_loop tx s)]> (lots s))).
    { apply map_Forall_insert_2; [|exact Hok].
      apply sell_loop_positive, inventory_positive_lookup, Hok. }
    destruct (Qltb 0 _); exact H. }
  destruct (String.eqb (tx_type tx) "staking"); exact Hok.
Qed.

(** If every buy of the ledger has a positive amount, then after the run
    every lot of every asset holds a positive quantity: a lot that a sale
    uses up is removed, and a lot that a sale uses in part keeps what is
    left, which is more than nothing. *)
Theorem lots_stay_positive (txs : list Transaction) :
  Forall (fun tx => is_buy tx = true -> 0 < amount tx) txs ->
  forall a ls, lots (run_engine txs) !! a = Some ls ->
               Forall (fun l => 0 < quantity l) ls.
Proof.
  intros Hall.
  assert (Hok : inventory_positive (run_engine txs)).
  { induction txs as [|tx txs IH] using rev_ind.
    - unfold run_engine, inventory_positive. simpl. apply map_Forall_empty.
    - apply Forall_app in Hall as [Hall Htx].
      rewrite run_engine_snoc. apply add_transaction_inventory_positive.
      + apply IH, Hall.
      + intros Hb. apply Forall_inv in Htx. apply Htx.
        unfold is_buy. now rewrite Hb. }
  intros a ls Hls. exact (Hok a ls Hls).
Qed.

Lemma lots_stay_positive_witness :
  exists l,
    lots (run_engine (Samples.two_lots ++ [Samples.sell "BTC" (3 # 2) 150]))
      !! "BTC" = Some [l] /\
    0 < quantity l.
Proof.
  assert (H : exists l,
             lots (run_engine
                     (Samples.two_lots ++ [Samples.sell "BTC" (3 # 2) 150]))
               !! "BTC" = Some [l])
    by (eexists; vm_compute; reflexivity).
  destruct H as [l H]. exists l. split; [exact H|].
  assert (Hbuys : Forall (fun tx => is_buy tx = true -> 0 < amount tx)
                    (Samples.two_lots ++ [Samples.sell "BTC" (3 # 2) 150]))
    by (repeat constructor; discriminate).
  pose proof (lots_stay_positive _ Hbuys "BTC" [l] H) as Hpos.
  exact (Forall_inv Hpos).
Defined.

(** ** Buying and selling all of it *)

Lemma process_sell_lookup tx s :
  no_lots s (asset tx) = false ->
  lots (_process_sell tx s) !! asset tx = Some (loop_lots (run_sell_loop tx s)).
Proof.
  intros H. unfold _process_sell. rewrite H.
  destruct (Qltb 0 _); simpl; apply lookup_insert_eq.
Qed.

(** Buying a positive quantity of an asset that has no lots and selling
    the same quantity consumes the new lot whole: the asset is left with
    an empty lot list (so the next sale of it is reported), nothing is
    logged, and the lots of the other assets are as they were. *)
Theorem buy_then_sell_all (s : SimpleTaxEngine) (a : string)
    (d1 d2 : datetime) (q p f p' f' : Q) :
  no_lots s a = true -> 0 < q ->
  let b := mk_tx d1 a "buy" q p f in
  let v := mk_tx d2 a "sell" q p' f' in
  let s' := add_transaction v (add_transaction b s) in
  lots s' !! a = Some [] /\
  no_lots s' a = true /\
  errors s' = errors s /\
  (forall a', a' <> a -> lots s' !! a' = lots s !! a').
Proof.
  intros Hno Hq. cbv zeta.
  set (b := mk_tx d1 a "buy" q p f).
  set (v := mk_tx d2 a "sell" q p' f').
  set (s1 := add_transaction b s).
  assert (Hs1 : s1 = _process_buy b
                       (set_transactions (transactions s ++ [b]) s))
    by reflexivity.
  assert (He : errors s1 = errors s) by reflexivity.
  assert (Hother : forall a', a' <> a -> lots s1 !! a' = lots s !! a').
  { intros a' Hne. rewrite Hs1, process_buy_lookup.
    now rewrite decide_False by (simpl; congruence). }
  assert (Hls : lots s1 !! a = Some [new_lot b]).
  { rewrite Hs1, process_buy_lookup.
    rewrite decide_True by reflexivity.
    change (lots (set_transactions _ s) !! asset b) with (lots s !! a).
    apply no_lots_true in Hno as [-> | ->]; reflexivity. }
  assert (Hno1 : no_lots s1 a = false).
  { unfold no_lots. now rewrite Hls. }
  replace (add_transaction v s1)
    with (_process_sell v (set_transactions (transactions s1 ++ [v]) s1))
    by reflexivity.
  set (s2 := set_transactions (transactions s1 ++ [v]) s1).
  assert (Hloop : run_sell_loop v s2 = mk_loop [] (q - q) (0 + (q * p + f))).
  { unfold run_sell_loop. change (lots s2) with (lots s1).
    change (asset v) with a. rewrite Hls. simpl.
    apply Qltb_lt in Hq as Hb. rewrite Hb.
    assert (Hqq : Qleb q q = true) by (apply Qleb_le, Qle_refl).
    now rewrite Hqq. }
  assert (Hlk : lots (_process_sell v s2) !! a = Some []).
  { pose proof (process_sell_lookup v s2 Hno1) as H.
    change (asset v) with a in H. rewrite H, Hloop. reflexivity. }
  split; [exact Hlk|]. split; [unfold no_lots; now rewrite Hlk|].
  split; [rewrite (sell_with_lots_errors v s2 Hno1); exact He|].
  intros a' Hne. rewrite (process_sell_lots_other v s2 a' Hne).
  change (lots s2) with (lots s1). apply Hother. exact Hne.
Qed.

Lemma buy_then_sell_all_witness :
  let s' := run_engine [Samples.buy "SOL" 4 25; Samples.sell "SOL" 4 30] in
  lots s' !! "SOL" = Some [] /\ no_lots s' "SOL" = true.
Proof.
  cbv zeta.
  destruct (buy_then_sell_all init "SOL" Samples.noon Samples.noon
              4 25 0 30 0) as (H1 & H2 & _).
  - reflexivity.
  - reflexivity.
  - exact (conj H1 H2).
Defined.

(** ** The error log *)

Lemma add_transaction_errors tx s :
  errors (add_transaction tx s) =
  if is_sell tx && no_lots s (asset tx)
  then errors s ++ [sale_error (asset tx)]
  else errors s.
Proof.
  unfold add_transaction, is_sell.
  destruct (String.eqb_spec (tx_type tx) "buy") as [Hb|Hb].
  { rewrite Hb. reflexivity. }
  destruct (String.eqb (tx_type tx) "sell"); simpl.
  { unfold _process_sell. simpl.
    change (no_lots (set_transactions _ s) (asset tx))
      with (no_lots s (asset tx)).
    destruct (no_lots s (asset tx)); [reflexivity|].
    destruct (Qltb 0 _); reflexivity. }
  destruct (String.eqb (tx_type tx) "staking"); reflexivity.
Qed.

Lemma errors_le_sells txs :
  (length (errors (run_engine txs)) <= length (List.filter is_sell txs))%nat.
Proof.
  induction txs as [|tx txs IH] using rev_ind; [simpl; lia|].
  rewrite run_engine_snoc, add_transaction_errors, List.filter_app.
  rewrite length_app. simpl.
  destruct (is_sell tx); simpl; [|lia].
  destruct (no_lots _ _); [rewrite length_app; simpl|]; lia.
Qed.

(** The error log only grows, by at most one entry per sell; every entry
    is the message for the asset of some sell of the ledger; a ledger
    without sells logs nothing. *)
Theorem error_log_of_run (txs : list Transaction) :
  (forall tx s, errors s `prefix_of` errors (add_transaction tx s)) /\
  (length (errors (run_engine txs)) <= length (List.filter is_sell txs))%nat /\
  Forall (fun e => exists tx,
                     In tx txs /\ is_sell tx = true /\
                     e = sale_error (asset tx))
         (errors (run_engine txs)) /\
  (Forall (fun tx => is_sell tx = false) txs -> errors (run_engine txs) = []).
Proof.
  split.
  { intros tx s. rewrite add_transaction_errors.
    destruct (_ && _); [apply prefix_app_r|]; reflexivity. }
  split; [apply errors_le_sells|]. split.
  - induction txs as [|tx txs IH] using rev_ind; [constructor|].
    rewrite run_engine_snoc, add_transaction_errors.
    assert (Hold : Forall (fun e => exists tx0,
                     In tx0 (txs ++ [tx]) /\ is_sell tx0 = true /\
                     e = sale_error (asset tx0)) (errors (run_engine txs))).
    { eapply Forall_impl; [exact IH|].
      intros e (tx0 & Hin & Hs & He). exists tx0.
      split; [apply in_or_app; left; exact Hin | auto]. }
    destruct (is_sell tx) eqn:Hs; simpl; [|exact Hold].
    destruct (no_lots _ _); [|exact Hold].
    apply Forall_app. split; [exact Hold|].
    constructor; [|constructor].
    exists tx. split; [apply in_or_app; right; left; reflexivity | auto].
  - intros Hnone. pose proof (errors_le_sells txs) as Hlen.
    assert (H0 : length (List.filter is_sell txs) = 0%nat).
    { clear Hlen. induction Hnone as [|tx l Htx _ IH]; simpl; [reflexivity|].
      now rewrite Htx. }
    rewrite H0 in Hlen. destruct (errors (run_engine txs)); [reflexivity|].
    simpl in Hlen. lia.
Qed.

Lemma error_log_of_run_witness :
  errors (run_engine Samples.two_lots) = [].
Proof.
  destruct (error_log_of_run Samples.two_lots) as (_ & _ & _ & H).
  apply H. repeat constructor.
Defined.

(** ** Rounding is monotone *)

Lemma round_half_even_comp x y :
  x == y -> round_half_even x = round_half_even y.
Proof.
  intros H. unfold round_half_even.
  rewrite (Qfloor_comp x y H).
  assert (Hc : Qcompare (x - inject_Z (Qfloor y)) (1 # 2)
               = Qcompare (y - inject_Z (Qfloor y)) (1 # 2))
    by (now rewrite H).
  now rewrite Hc.
Qed.


Lemma round_comp x y n : x == y -> round x n == round y n.
Proof.
  intros H. unfold round.
  rewrite (round_half_even_comp
             (x * inject_Z (10 ^ Z.of_nat n)) (y * inject_Z (10 ^ Z.of_nat n)))
    by (now rewrite H).
  reflexivity.
Qed.



(** ** Bounds on the tax estimate *)






(** * Further properties of the normalizer *)

(** ** Rows that are skipped *)

Lemma truthy_py_or a b : truthy (py_or a b) = truthy a || truthy b.
Proof. unfold py_or. destruct (truthy a) eqn:E; [exact E | reflexivity]. Qed.

Lemma truthy_is_some o : truthy o = true -> exists s, o = Some s /\ s <> "".
Proof.
  destruct o as [s|]; simpl; [|discriminate].
  intros H. exists s. split; [reflexivity|].
  intros ->. discriminate.
Qed.

Section RowFacts.

Variable float : string -> option Q.
Variable strptime : string -> option datetime.

(** The three required fields present: the row is emitted or fails, and it
    is emitted exactly when the three parsers accept their texts. *)
Lemma parse_row_complete row :
  truthy (date_field row) && truthy (coin_field row)
    && truthy (change_field row) = true ->
  exists ds cn cs,
    date_field row = Some ds /\ ds <> "" /\
    coin_field row = Some cn /\ cn <> "" /\
    change_field row = Some cs /\ cs <> "" /\
    parse_row float strptime row =
    match strptime (before_dot ds), float cs, parse_price float row with
    | Some dt, Some change, Some price =>
        Parsed {| date := dt; asset := cn;
                  tx_type := classify (operation_field row) change;
                  amount := Qabs change; price_eur := price; fee_eur := 0 |}
    | _, _, _ => Failed
    end.
Proof.
  intros H. unfold parse_row. rewrite H.
  apply andb_true_iff in H as [H Hq]. apply andb_true_iff in H as [Hd Hc].
  apply truthy_is_some in Hd as (ds & Ed & Hds).
  apply truthy_is_some in Hc as (cn & Ec & Hcn).
  apply truthy_is_some in Hq as (cs & Eq & Hcs).
  exists ds, cn, cs. rewrite Ed, Ec, Eq.
  repeat (split; [assumption || reflexivity|]).
  destruct (strptime (before_dot ds)); [|reflexivity].
  destruct (float cs); [|reflexivity].
  destruct (parse_price float row); reflexivity.
Qed.

(** A row is skipped without a log entry exactly when one of the three
    required fields has no non-empty cell under any of its column names:
    Date(UTC), Date or UTC_Time; Coin or Asset; Change or Amount.  The
    operation and price columns play no part in it. *)
Theorem row_incomplete_iff (row : Row) :
  parse_row float strptime row = Incomplete <->
  (truthy (row !! "Date(UTC)") || truthy (row !! "Date")
     || truthy (row !! "UTC_Time"))
  && (truthy (row !! "Coin") || truthy (row !! "Asset"))
  && (truthy (row !! "Change") || truthy (row !! "Amount")) = false.
Proof.
  rewrite <- !truthy_py_or.
  change (py_or (py_or (row !! "Date(UTC)") (row !! "Date"))
                (row !! "UTC_Time")) with (date_field row).
  change (py_or (row !! "Coin") (row !! "Asset")) with (coin_field row).
  change (py_or (row !! "Change") (row !! "Amount")) with (change_field row).
  destruct (truthy (date_field row) && truthy (coin_field row)
            && truthy (change_field row)) eqn:E.
  - destruct (parse_row_complete row E) as (ds & cn & cs & _ & _ & _ & _ & _
                                             & _ & ->).
    split; [|discriminate].
    destruct (strptime (before_dot ds)); [|discriminate].
    destruct (float cs); [|discriminate].
    destruct (parse_price float row); discriminate.
  - split; [reflexivity|]. intros _. unfold parse_row. now rewrite E.
Qed.

(** ** Rows that are emitted *)

Lemma classify_values operation change :
  classify operation change = "buy" \/ classify operation change = "sell" \/
  classify operation change = "staking" \/
  classify operation change = "transfer".
Proof.
  unfold classify.
  destruct (_ || _); [auto|]. destruct (_ || _); [auto|].
  destruct (_ || _); auto.
Qed.

(** Every transaction the normalizer emits has: as asset the row's asset
    cell, which is not empty; as date what the timestamp parser made of
    the row's date cell cut at its first dot; fee 0; and one of the four
    types the engine knows. *)
Theorem parsed_transaction_shape (row : Row) (tx : Transaction) :
  parse_row float strptime row = Parsed tx ->
  (exists ds,
     date_field row = Some ds /\
     strptime (before_dot ds) = Some (date tx)) /\
  coin_field row = Some (asset tx) /\ asset tx <> "" /\
  fee_eur tx = 0 /\
  (tx_type tx = "buy" \/ tx_type tx = "sell" \/
   tx_type tx = "staking" \/ tx_type tx = "transfer").
Proof.
  intros H.
  destruct (truthy (date_field row) && truthy (coin_field row)
            && truthy (change_field row)) eqn:E.
  2: { unfold parse_row in H. rewrite E in H. discriminate. }
  destruct (parse_row_complete row E)
    as (ds & cn & cs & Hd & _ & Hc & Hcn & Hq & _ & Hrow).
  rewrite Hrow in H.
  destruct (strptime (before_dot ds)) as [dt|] eqn:Hdt; [|discriminate].
  destruct (float cs) as [change|] eqn:Hch; [|discriminate].
  destruct (parse_price float row) as [price|]; [|discriminate].
  injection H as <-. simpl.
  split; [exists ds; auto|].
  split; [exact Hc|]. split; [exact Hcn|].
  split; [reflexivity|]. apply classify_values.
Qed.

(** ** The loop over the rows *)

Lemma parse_binance_rows_app rows1 rows2 :
  parse_binance_rows float strptime (rows1 ++ rows2) =
  parse_binance_rows float strptime rows1
  ++ parse_binance_rows float strptime rows2.
Proof.
  induction rows1 as [|row rows1 IH]; [reflexivity|].
  simpl. destruct (parse_row float strptime row); rewrite IH; reflexivity.
Qed.

Lemma parse_binance_rows_length rows :
  (length (parse_binance_rows float strptime rows) <= length rows)%nat.
Proof.
  induction rows as [|row rows IH]; simpl; [lia|].
  destruct (parse_row float strptime row); simpl; lia.
Qed.

(** Rows are handled one by one: the result for a table is the results
    for its parts, in order; a row that is skipped or fails changes
    nothing for the rows around it; an emitted row yields its one
    transaction in place; so there are never more transactions than
    rows. *)
Theorem rows_are_independent (rows1 rows2 : list Row) :
  parse_binance_rows float strptime (rows1 ++ rows2) =
    parse_binance_rows float strptime rows1
    ++ parse_binance_rows float strptime rows2 /\
  (forall row,
     parse_row float strptime row = Incomplete \/
     parse_row float strptime row = Failed ->
     parse_binance_rows float strptime (rows1 ++ row :: rows2) =
     parse_binance_rows float strptime (rows1 ++ rows2)) /\
  (forall row tx,
     parse_row float strptime row = Parsed tx ->
     parse_binance_rows float strptime (rows1 ++ row :: rows2) =
     parse_binance_rows float strptime rows1
     ++ tx :: parse_binance_rows float strptime rows2) /\
  (length (parse_binance_rows float strptime rows1) <= length rows1)%nat.
Proof.
  split; [apply parse_binance_rows_app|]. split; [|split].
  - intros row H. rewrite !parse_binance_rows_app. simpl.
    destruct H as [-> | ->]; reflexivity.
  - intros row tx H. rewrite parse_binance_rows_app. simpl.
    now rewrite H.
  - apply parse_binance_rows_length.
Qed.

End RowFacts.

Lemma row_incomplete_iff_witness :
  parse_row PyParse.float PyParse.strptime
    (delete "Coin" Samples.no_price_row) = Incomplete.
Proof.
  apply row_incomplete_iff. vm_compute. reflexivity.
Defined.

Lemma parsed_transaction_shape_witness :
  exists tx,
    parse_row PyParse.float PyParse.strptime Samples.no_price_row = Parsed tx /\
    fee_eur tx = 0 /\ asset tx <> "".
Proof.
  assert (H : exists tx, parse_row PyParse.float PyParse.strptime
                           Samples.no_price_row = Parsed tx)
    by (eexists; vm_compute; reflexivity).
  destruct H as [tx H]. exists tx.
  destruct (parsed_transaction_shape PyParse.float PyParse.strptime
              Samples.no_price_row tx H) as (_ & _ & Ha & Hf & _).
  exact (conj H (conj Hf Ha)).
Defined.

Lemma rows_are_independent_witness :
  parse_binance_rows PyParse.float PyParse.strptime
    ([Samples.no_price_row] ++ Samples.bad_price_row :: [Samples.reward_row]) =
  parse_binance_rows PyParse.float PyParse.strptime
    ([Samples.no_price_row] ++ [Samples.reward_row]).
Proof.
  destruct (rows_are_independent PyParse.float PyParse.strptime
              [Samples.no_price_row] [Samples.reward_row]) as (_ & H & _).
  apply H. right. vm_compute. reflexivity.
Defined.

(** ** Fractional seconds *)

Lemma contains_dot_cons c r :
  contains "." (String c r) = Ascii.eqb c "." || contains "." r.
Proof.
  rewrite contains_unfold. f_equal.
  change (String.prefix "." (String c r))
    with (if ascii_dec "." c then String.prefix "" r else false).
  destruct (ascii_dec "." c) as [<-|Hne].
  - destruct r; reflexivity.
  - symmetry. apply Ascii.eqb_neq. congruence.
Qed.

(** The text handed to the timestamp parser never holds a dot: it is the
    timestamp up to its first dot, so a timestamp without a dot is handed
    over whole and a fraction of a second, however long, is cut off. *)
Theorem fractional_seconds_cut :
  (forall s, contains "." (before_dot s) = false) /\
  (forall s, contains "." s = false -> before_dot s = s) /\
  (forall s frac,
     contains "." s = false -> before_dot (s +:+ "." +:+ frac) = s).
Proof.
  split; [|split].
  - induction s as [|c r IH]; [reflexivity|].
    simpl. destruct (Ascii.eqb c ".") eqn:E; [reflexivity|].
    now rewrite contains_dot_cons, E, IH.
  - induction s as [|c r IH]; [reflexivity|].
    rewrite contains_dot_cons. intros H.
    apply orb_false_iff in H as [Hc Hr].
    simpl. rewrite Hc. now rewrite (IH Hr).
  - intros s frac. induction s as [|c r IH]; [reflexivity|].
    rewrite contains_dot_cons. intros H.
    apply orb_false_iff in H as [Hc Hr].
    change (String c r +:+ "." +:+ frac)
      with (String c (r +:+ "." +:+ frac)).
    simpl. rewrite Hc. now rewrite (IH Hr).
Qed.

Lemma fractional_seconds_cut_witness :
  before_dot ("2024-01-15 12:00:00" +:+ "." +:+ "123456")
  = "2024-01-15 12:00:00".
Proof.
  destruct fractional_seconds_cut as (_ & _ & H).
  apply H. reflexivity.
Defined.

(** * Properties of the [/calculate] handler *)

Import Webhook.

Section HandlerFacts.

Variable reader : string -> option (list Row).
Variable float : string -> option Q.
Variable strptime : string -> option datetime.
Variable str_lower : string -> string.

Local Abbreviation handle := (calculate reader float strptime str_lower).
Local Abbreviation parse_csv := (parse_binance_csv reader float strptime).
Local Abbreviation exchange_of := (Webhook.exchange_of str_lower).

(** The handler on a non-empty object whose exchange value, if any, is a
    string. *)
Lemma calculate_object data exchange :
  data <> ∅ -> exchange_of data = Some exchange ->
  handle (Object data) =
  match data !! "email", data !! "nif", data !! "nombre",
        data !! "csv_content" with
  | Some email, Some nif, Some nombre, Some csv_content =>
      if jtruthy (Some email) && jtruthy (Some nif)
         && jtruthy (Some nombre) && jtruthy (Some csv_content)
      then
        match parse_csv csv_content with
        | [] => BadRequest "No transactions parsed from CSV"
        | tx :: txs =>
            Success email nombre nif exchange (run_ledger (tx :: txs))
        end
      else BadRequest missing_fields
  | _, _, _, _ => BadRequest missing_fields
  end.
Proof.
  intros Hne Hex. unfold calculate.
  rewrite bool_decide_eq_false_2 by exact Hne. rewrite Hex.
  destruct (data !! "email") as [email|]; [|reflexivity].
  destruct (data !! "nif") as [nif|]; [|reflexivity].
  destruct (data !! "nombre") as [nombre|]; [|reflexivity].
  destruct (data !! "csv_content") as [csv|]; [|reflexivity].
  destruct (_ && _); [|reflexivity].
  destruct (String.eqb exchange "binance");
    destruct (parse_binance_csv reader float strptime csv); reflexivity.
Qed.

Lemma jtruthy_none_false (o : option jvalue) :
  o = None -> jtruthy o = false.
Proof. now intros ->. Qed.

(** A 200 response is given only for an object body that holds a true
    value for email, nif and nombre, a non-empty CSV text that the reader
    accepts and of which at least one row is emitted, and no exchange
    value other than a string.  It carries the three values as sent and
    the exchange in lower case (that of 'binance' if none was sent), and
    its summary counts at least one transaction and at most as many as
    the table has rows. *)
Theorem calculate_success (b : body) (email nombre nif : jvalue)
    (exchange : string) (summary : Summary) :
  handle b = Success email nombre nif exchange summary ->
  exists data csv rows,
    b = Object data /\
    data !! "email" = Some email /\ jtruthy (Some email) = true /\
    data !! "nif" = Some nif /\ jtruthy (Some nif) = true /\
    data !! "nombre" = Some nombre /\ jtruthy (Some nombre) = true /\
    data !! "csv_content" = Some (JStr csv) /\ csv <> "" /\
    exchange_of data = Some exchange /\
    reader csv = Some rows /\
    parse_binance_rows float strptime rows <> [] /\
    sum_total_transactions summary =
      length (parse_binance_rows float strptime rows) /\
    (1 <= sum_total_transactions summary <= length rows)%nat.
Proof.
  intros H. destruct b as [|[|]|data]; try discriminate.
  destruct (decide (data = ∅)) as [->|Hne]; [discriminate|].
  destruct (exchange_of data) as [ex|] eqn:Hex.
  2: { unfold calculate in H.
       rewrite bool_decide_eq_false_2, Hex in H by exact Hne. discriminate. }
  rewrite (calculate_object data ex Hne Hex) in H.
  destruct (data !! "email") as [em|] eqn:Eem; [|discriminate].
  destruct (data !! "nif") as [ni|] eqn:Eni; [|discriminate].
  destruct (data !! "nombre") as [no|] eqn:Eno; [|discriminate].
  destruct (data !! "csv_content") as [cv|] eqn:Ecv; [|discriminate].
  destruct (jtruthy (Some em) && jtruthy (Some ni) && jtruthy (Some no)
            && jtruthy (Some cv)) eqn:Ht; [|discriminate].
  apply andb_true_iff in Ht as [Ht Hcv].
  apply andb_true_iff in Ht as [Ht Hno].
  apply andb_true_iff in Ht as [Hem Hni].
  destruct cv as [csv|t]; [|discriminate].
  unfold parse_binance_csv in H.
  destruct (reader csv) as [rows|] eqn:Hrd; [|discriminate].
  destruct (parse_binance_rows float strptime rows) as [|tx txs] eqn:Hp;
    [discriminate|].
  injection H as <- <- <- <- <-.
  exists data, csv, rows.
  repeat (split; [assumption || reflexivity|]).
  split. { intros ->. discriminate. }
  split; [exact Hex|]. split; [exact Hrd|].
  split; [rewrite Hp; discriminate|].
  assert (Hcount : sum_total_transactions (run_ledger (tx :: txs))
                   = length (tx :: txs)).
  { unfold run_ledger, get_summary. cbn [sum_total_transactions].
    apply run_engine_count. }
  split; [rewrite Hp; exact Hcount|].
  rewrite Hcount.
  pose proof (parse_binance_rows_length float strptime rows) as Hl.
  rewrite Hp in Hl. simpl in *. lia.
Qed.

(** How a request is turned down, for an object body that is not empty.
    An exchange value that is not a string gives a 500 response, whatever
    the other fields are.  Otherwise a missing or false value among
    email, nif, nombre and csv_content gives the 400 response that names
    the four fields, before any parsing; and with the four values true,
    a CSV content from which no transaction comes out (not a text, a text
    the reader rejects, or rows that are all skipped or failed) gives
    the 400 response 'No transactions parsed from CSV'. *)
Theorem calculate_rejections (data : gmap string jvalue) :
  data <> ∅ ->
  (exchange_of data = None -> handle (Object data) = ServerError) /\
  (exchange_of data <> None ->
   jtruthy (data !! "email") && jtruthy (data !! "nif")
     && jtruthy (data !! "nombre") && jtruthy (data !! "csv_content")
   = false ->
   handle (Object data) = BadRequest missing_fields) /\
  (exchange_of data <> None ->
   jtruthy (data !! "email") && jtruthy (data !! "nif")
     && jtruthy (data !! "nombre") && jtruthy (data !! "csv_content")
   = true ->
   forall csv, data !! "csv_content" = Some csv ->
   parse_csv csv = [] ->
   handle (Object data) = BadRequest "No transactions parsed from CSV") /\
  (forall t, parse_csv (JOther t) = []) /\
  (forall text, reader text = None -> parse_csv (JStr text) = []) /\
  (forall text rows,
     reader text = Some rows ->
     Forall (fun row => forall tx,
               parse_row float strptime row <> Parsed tx) rows ->
     parse_csv (JStr text) = []).
Proof.
  intros Hne. split; [|split; [|split; [|split; [|split]]]].
  - intros Hex. unfold calculate.
    now rewrite bool_decide_eq_false_2, Hex by exact Hne.
  - intros Hex Hf. destruct (exchange_of data) as [ex|] eqn:E;
      [|contradiction].
    rewrite (calculate_object data ex Hne E).
    destruct (data !! "email") as [em|]; [|reflexivity].
    destruct (data !! "nif") as [ni|]; [|reflexivity].
    destruct (data !! "nombre") as [no|]; [|reflexivity].
    destruct (data !! "csv_content") as [cv|]; [|reflexivity].
    now rewrite Hf.
  - intros Hex Ht csv Hcsv Hp.
    destruct (exchange_of data) as [ex|] eqn:E; [|contradiction].
    rewrite (calculate_object data ex Hne E).
    rewrite Hcsv in *.
    destruct (data !! "email") as [em|];
      [|simpl in Ht; discriminate].
    destruct (data !! "nif") as [ni|];
      [|simpl in Ht; rewrite andb_false_r in Ht; discriminate].
    destruct (data !! "nombre") as [no|];
      [|simpl in Ht; rewrite !andb_false_r in Ht; discriminate].
    now rewrite Ht, Hp.
  - reflexivity.
  - intros text H. unfold parse_binance_csv. now rewrite H.
  - intros text rows H Hall. unfold parse_binance_csv. rewrite H. clear H.
    induction Hall as [|row rest Hrow _ IH]; [reflexivity|].
    simpl. destruct (parse_row float strptime row) as [tx| |] eqn:E;
      [|exact IH|exact IH].
    exfalso. exact (Hrow tx eq_refl).
Qed.

Lemma exchange_of_insert data e :
  exchange_of (<["exchange" := JStr e]> data) = Some (str_lower e).
Proof. unfold Webhook.exchange_of. now rewrite lookup_insert_eq. Qed.

(** The exchange value steers nothing: replacing it by any text changes
    neither the status, nor the message, nor the values sent back, nor
    the summary; a 200 response only repeats the new text as
    [str.lower] returns it. *)
Theorem exchange_only_echoed (data : gmap string jvalue) (e : string) :
  data <> ∅ -> exchange_of data <> None ->
  let r := handle (Object data) in
  let r' := handle (Object (<["exchange" := JStr e]> data)) in
  status r' = status r /\
  match r, r' with
  | Success em no ni _ su, Success em' no' ni' ex' su' =>
      em' = em /\ no' = no /\ ni' = ni /\ su' = su /\ ex' = str_lower e
  | BadRequest m, BadRequest m' => m' = m
  | _, _ => False
  end.
Proof.
  intros Hne Hex. cbv zeta.
  destruct (exchange_of data) as [ex|] eqn:E; [|contradiction].
  rewrite (calculate_object data ex Hne E).
  rewrite (calculate_object _ (str_lower e)
             (insert_non_empty data "exchange" (JStr e))
             (exchange_of_insert data e)).
  rewrite !lookup_insert_ne by discriminate.
  destruct (data !! "email") as [em|]; [|split; reflexivity].
  destruct (data !! "nif") as [ni|]; [|split; reflexivity].
  destruct (data !! "nombre") as [no|]; [|split; reflexivity].
  destruct (data !! "csv_content") as [cv|]; [|split; reflexivity].
  destruct (_ && _); [|split; reflexivity].
  destruct (parse_binance_csv reader float strptime cv);
    [split; reflexivity|].
  split; [reflexivity|]. repeat split.
Qed.

End HandlerFacts.

Lemma calculate_success_witness :
  let b := Object (list_to_map [("email", JStr "a@b.es"); ("nif", JStr "1A");
                                ("nombre", JStr "Ana");
                                ("csv_content", JStr "csv")]) in
  let summary := run_ledger
                   (parse_binance_rows PyParse.float PyParse.strptime
                      [Samples.no_price_row]) in
  calculate (fun _ => Some [Samples.no_price_row]) PyParse.float
    PyParse.strptime lower b
  = Success (JStr "a@b.es") (JStr "Ana") (JStr "1A") "binance" summary /\
  (1 <= sum_total_transactions summary <= 1)%nat.
Proof.
  cbv zeta.
  assert (H : calculate (fun _ => Some [Samples.no_price_row]) PyParse.float
                PyParse.strptime lower
                (Object (list_to_map
                           [("email", JStr "a@b.es"); ("nif", JStr "1A");
                            ("nombre", JStr "Ana");
                            ("csv_content", JStr "csv")]))
              = Success (JStr "a@b.es") (JStr "Ana") (JStr "1A") "binance"
                  (run_ledger
                     (parse_binance_rows PyParse.float PyParse.strptime
                        [Samples.no_price_row])))
    by (vm_compute; reflexivity).
  split; [exact H|].
  destruct (calculate_success _ _ _ _ _ _ _ _ _ _ H)
    as (data & csv & rows & _ & _ & _ & _ & _ & _ & _ & _ & _ & _ & Hrd
        & _ & _ & Hc).
  injection Hrd as <-. exact Hc.
Defined.

Lemma calculate_rejections_witness :
  calculate (fun _ => Some [Samples.no_price_row]) PyParse.float
    PyParse.strptime lower
    (Object (list_to_map [("email", JStr "a@b.es"); ("nif", JStr "");
                          ("csv_content", JStr "csv")]))
  = BadRequest missing_fields.
Proof.
  destruct (calculate_rejections (fun _ => Some [Samples.no_price_row])
              PyParse.float PyParse.strptime lower
              (list_to_map [("email", JStr "a@b.es"); ("nif", JStr "");
                            ("csv_content", JStr "csv")]))
    as (_ & H & _).
  - intros E. apply (f_equal (fun m => m !! "email")) in E.
    vm_compute in E. discriminate.
  - apply H; [discriminate | vm_compute; reflexivity].
Defined.

Lemma exchange_only_echoed_witness :
  let data : gmap string jvalue :=
    list_to_map [("email", JStr "a@b.es"); ("nif", JStr "1A");
                 ("nombre", JStr "Ana"); ("csv_content", JStr "csv")] in
  let h := calculate (fun _ => Some [Samples.no_price_row]) PyParse.float
             PyParse.strptime lower in
  status (h (Object (<["exchange" := JStr "Kraken"]> data)))
  = status (h (Object data)).
Proof.
  cbv zeta.
  destruct (exchange_only_echoed (fun _ => Some [Samples.no_price_row])
              PyParse.float PyParse.strptime lower
              (list_to_map [("email", JStr "a@b.es"); ("nif", JStr "1A");
                            ("nombre", JStr "Ana");
                            ("csv_content", JStr "csv")]) "Kraken")
    as [H _].
  - intros E. apply (f_equal (fun m => m !! "email")) in E.
    vm_compute in E. discriminate.
  - discriminate.
  - exact H.
Defined.

(** * The engine on binary64 floats: rounding, overflow and NaN *)

Module Binary64.

Import FloatSign.

(** ** The sign of a rounded sum *)

Lemma shr_1_nonneg mrs : (0 <= shr_m mrs)%Z -> (0 <= shr_m (shr_1 mrs))%Z.
Proof.
  destruct mrs as [m r s]. simpl.
  destruct m as [|[p|p|]|[p|p|]]; simpl; lia.
Qed.

Lemma iter_pos_nonneg p mrs :
  (0 <= shr_m mrs)%Z -> (0 <= shr_m (SpecFloat.iter_pos shr_1 p mrs))%Z.
Proof.
  revert mrs. induction p as [p IH|p IH|]; intros mrs H; simpl.
  - apply IH, IH, shr_1_nonneg, H.
  - apply IH, IH, H.
  - apply shr_1_nonneg, H.
Qed.

Lemma shr_fexp_nonneg prec emax m e l :
  (0 <= m)%Z -> (0 <= shr_m (fst (shr_fexp prec emax m e l)))%Z.
Proof.
  intros H. unfold shr_fexp, shr.
  assert (H0 : (0 <= shr_m (shr_record_of_loc m l))%Z)
    by (destruct l as [|[| |]]; exact H).
  destruct (_ - e)%Z; simpl; [exact H0 | apply iter_pos_nonneg, H0 | exact H0].
Qed.

Lemma round_nearest_even_nonneg m l :
  (0 <= m)%Z -> (0 <= round_nearest_even m l)%Z.
Proof.
  intros H. destruct l as [|[| |]]; simpl; try lia.
  destruct (Z.even m); lia.
Qed.

Lemma binary_round_aux_signed prec emax s m e l :
  (0 <= m)%Z -> signed s (binary_round_aux prec emax s m e l).
Proof.
  intros H. unfold binary_round_aux.
  pose proof (shr_fexp_nonneg prec emax m e l H) as H1.
  destruct (shr_fexp prec emax m e l) as [mrs' e']. simpl in H1.
  pose proof (shr_fexp_nonneg prec emax _ e' loc_Exact
                (round_nearest_even_nonneg _ (loc_of_shr_record mrs') H1))
    as H2.
  destruct (shr_fexp prec emax _ e' loc_Exact) as [mrs'' e'']. simpl in H2.
  destruct (shr_m mrs'') as [|p|p]; [reflexivity| |lia].
  destruct (e'' <=? emax - prec)%Z; reflexivity.
Qed.

Lemma binary_round_signed prec emax s m e :
  signed s (binary_round prec emax s m e).
Proof.
  unfold binary_round. destruct (shl_align _ _ _) as [mz ez].
  apply binary_round_aux_signed. lia.
Qed.

Lemma signed_nonneg r : signed false r -> nonneg r.
Proof.
  destruct r as [s|s| |s m e]; simpl; intros H; subst;
    try reflexivity; contradiction.
Qed.

Lemma signed_nonpos r : signed true r -> nonpos r.
Proof.
  destruct r as [s|s| |s m e]; simpl; intros H; subst;
    try reflexivity; contradiction.
Qed.

Lemma SFadd_nonneg a b : nonneg a -> nonneg b -> nonneg (SF64add a b).
Proof.
  unfold nonneg.
  destruct a as [sa|[|]| |[|] ma ea]; try discriminate;
  destruct b as [sb|[|]| |[|] mb eb]; try discriminate; intros _ _;
    try reflexivity.
  - destruct sa, sb; reflexivity.
  - apply signed_nonneg. unfold SF64add, SFadd, binary_normalize, cond_Zopp.
    simpl Z.add. apply binary_round_signed.
Qed.

Lemma SFadd_nonpos a b : nonpos a -> nonpos b -> nonpos (SF64add a b).
Proof.
  unfold nonpos.
  destruct a as [sa|[|]| |[|] ma ea]; try discriminate;
  destruct b as [sb|[|]| |[|] mb eb]; try discriminate; intros _ _;
    try reflexivity.
  - destruct sa, sb; reflexivity.
  - apply signed_nonpos. unfold SF64add, SFadd, binary_normalize, cond_Zopp.
    simpl Z.add. apply binary_round_signed.
Qed.

Lemma nonpos_notpos r : nonpos r -> notpos r.
Proof.
  unfold nonpos, notpos.
  destruct r as [s|[|]| |[|] m e]; try discriminate; reflexivity.
Qed.

Lemma notpos_cases r : notpos r -> r = S754_nan \/ nonpos r.
Proof.
  unfold nonpos, notpos.
  destruct r as [s|[|]| |[|] m e]; try discriminate; auto.
Qed.

Lemma SFadd_nan_r a : SF64add a S754_nan = S754_nan.
Proof. destruct a; reflexivity. Qed.

Lemma SFadd_nan_l a : SF64add S754_nan a = S754_nan.
Proof. destruct a; reflexivity. Qed.

Lemma SFadd_notpos a b : notpos a -> notpos b -> notpos (SF64add a b).
Proof.
  intros Ha Hb.
  destruct (notpos_cases a Ha) as [->|Ha']; [now rewrite SFadd_nan_l|].
  destruct (notpos_cases b Hb) as [->|Hb']; [now rewrite SFadd_nan_r|].
  apply nonpos_notpos, SFadd_nonpos; assumption.
Qed.

Lemma SFltb_zero_leb r : SFltb (S754_zero false) r = true -> nonneg r.
Proof.
  unfold nonneg. destruct r as [s|[|]| |[|] m e]; try discriminate; reflexivity.
Qed.

Lemma SFeqb_refl_nan r : SFeqb r r = false -> r = S754_nan.
Proof.
  destruct r as [s|[|]| |[|] m e]; try discriminate; try reflexivity;
    unfold SFeqb; simpl; rewrite Z.compare_refl, Pos.compare_cont_refl;
    discriminate.
Qed.

(** ** The same facts on primitive floats *)

Local Open Scope float_scope.

Lemma Prim2SF_zero : Prim2SF 0 = S754_zero false.
Proof. reflexivity. Qed.

Lemma leb_zero_nonneg x : (0 <=? x) = true <-> nonneg (Prim2SF x).
Proof. rewrite leb_spec, Prim2SF_zero. reflexivity. Qed.

Lemma leb_nonpos x : (x <=? 0) = true <-> nonpos (Prim2SF x).
Proof. rewrite leb_spec, Prim2SF_zero. reflexivity. Qed.

Lemma ltb_zero_notpos x : (0 <? x) = false <-> notpos (Prim2SF x).
Proof. rewrite ltb_spec, Prim2SF_zero. reflexivity. Qed.

Lemma is_nan_spec x : is_nan x = true <-> Prim2SF x = S754_nan.
Proof.
  unfold is_nan. rewrite FloatAxioms.eqb_spec. split.
  - intros H. apply negb_true_iff in H. now apply SFeqb_refl_nan.
  - intros ->. reflexivity.
Qed.

Lemma add_nonneg a g :
  (0 <=? a) = true -> (0 <? g) = true -> (0 <=? a + g) = true.
Proof.
  intros Ha Hg. apply leb_zero_nonneg. rewrite add_spec.
  apply SFadd_nonneg; [now apply leb_zero_nonneg|].
  apply SFltb_zero_leb. now rewrite <- Prim2SF_zero, <- ltb_spec.
Qed.

Lemma add_nonpos a g :
  (a <=? 0) = true -> (g <=? 0) = true -> (a + g <=? 0) = true.
Proof.
  intros Ha Hg. apply leb_nonpos. rewrite add_spec.
  apply SFadd_nonpos; now apply leb_nonpos.
Qed.

Lemma add_notpos a g :
  (0 <? a) = false -> (0 <? g) = false -> (0 <? a + g) = false.
Proof.
  intros Ha Hg. apply ltb_zero_notpos. rewrite add_spec.
  apply SFadd_notpos; now apply ltb_zero_notpos.
Qed.

Lemma add_nan a g : is_nan g = true -> is_nan (a + g) = true.
Proof.
  intros H. apply is_nan_spec in H. apply is_nan_spec.
  now rewrite add_spec, H, SFadd_nan_r.
Qed.

Lemma nonpos_of_notpos g :
  is_nan g = false -> (0 <? g) = false -> (g <=? 0) = true.
Proof.
  intros Hn Hg. apply leb_nonpos. apply ltb_zero_notpos in Hg.
  destruct (notpos_cases _ Hg) as [E|H]; [|exact H].
  apply is_nan_spec in E. congruence.
Qed.

Lemma notpos_of_nonpos g : (g <=? 0) = true -> (0 <? g) = false.
Proof.
  intros H. apply ltb_zero_notpos, nonpos_notpos. now apply leb_nonpos.
Qed.

Lemma leb_zero_negb_ltb g :
  is_nan g = false -> (g <=? 0) = negb (0 <? g).
Proof.
  intros Hn. destruct (0 <? g) eqn:E; simpl.
  - rewrite leb_spec, Prim2SF_zero. rewrite ltb_spec, Prim2SF_zero in E.
    destruct (Prim2SF g) as [s|[|]| |[|] m e]; try discriminate; reflexivity.
  - now apply nonpos_of_notpos.
Qed.

(** ** The tax estimate on floats *)

Import FloatEngine.
#[local] Set Warnings "-inexact-float".

(** C6, amended: the estimate is 0 for every net position that is not
    greater than 0, that is for [net <= 0] and also for a NaN; for a
    positive net position it is the product of the net position and one
    rate, rounded to two decimals as [round] does on floats, the rate
    being 19% if [net <= 6000], else 21% if [net <= 50000], else 23% if
    [net <= 200000], else 27%.  Away from NaN this is the schedule of
    section 4.2.  The summary estimates on [gains + losses].  Net 6000
    gives 1140.0; net 6000.01 is taxed at 21%, which gives 1260.0; and
    net 1.5, whose product 0.28500000000000003 lies just above a tie,
    gives 0.29. *)
Theorem estimate_tax_binary64 (net : float) :
  ((0 <? net) = false -> _estimate_tax net = 0) /\
  ((net <=? 0) = true -> _estimate_tax net = 0) /\
  ((0 <? net) = true -> (net <=? 6000) = true ->
     _estimate_tax net = round (net * 0.19) 2) /\
  ((0 <? net) = true -> (net <=? 6000) = false -> (net <=? 50000) = true ->
     _estimate_tax net = round (net * 0.21) 2) /\
  ((0 <? net) = true -> (net <=? 6000) = false -> (net <=? 50000) = false ->
     (net <=? 200000) = true ->
     _estimate_tax net = round (net * 0.23) 2) /\
  ((0 <? net) = true -> (net <=? 6000) = false -> (net <=? 50000) = false ->
     (net <=? 200000) = false ->
     _estimate_tax net = round (net * 0.27) 2) /\
  (is_nan net = false -> _estimate_tax net = tax_estimate_spec net) /\
  (forall s : SimpleTaxEngine,
     sum_estimated_tax_liability (get_summary s) =
     _estimate_tax (gains s + losses s)) /\
  _estimate_tax 6000 = 1140 /\
  _estimate_tax 6000.01 = round (6000.01 * 0.21) 2 /\
  _estimate_tax 6000.01 = 1260 /\
  _estimate_tax 1.5 = 0.29.
Proof.
  assert (Hz : (0 <? net) = false -> _estimate_tax net = 0).
  { intros H. unfold _estimate_tax. now rewrite H. }
  split; [exact Hz|].
  split; [intros H; apply Hz, notpos_of_nonpos, H|].
  split; [intros H0 H1; unfold _estimate_tax; now rewrite H0, H1|].
  split; [intros H0 H1 H2; unfold _estimate_tax; now rewrite H0, H1, H2|].
  split; [intros H0 H1 H2 H3; unfold _estimate_tax;
          now rewrite H0, H1, H2, H3|].
  split; [intros H0 H1 H2 H3; unfold _estimate_tax;
          now rewrite H0, H1, H2, H3|].
  split.
  { intros Hn. unfold _estimate_tax, tax_estimate_spec.
    rewrite (leb_zero_negb_ltb net Hn). destruct (0 <? net); reflexivity. }
  split; [intros s; reflexivity|].
  split; [vm_compute; reflexivity|].
  split; [vm_compute; reflexivity|].
  split; vm_compute; reflexivity.
Qed.

Lemma estimate_tax_binary64_witness :
  (0 <? 6000) = true /\ (6000 <=? 6000) = true /\
  _estimate_tax 6000 = round (6000 * 0.19) 2 /\
  _estimate_tax (-5) = 0.
Proof.
  assert (H0 : (0 <? 6000) = true) by reflexivity.
  assert (H1 : (6000 <=? 6000) = true) by reflexivity.
  assert (H2 : (-5 <=? 0) = true) by reflexivity.
  pose proof (estimate_tax_binary64 6000) as (_ & _ & H19 & _).
  pose proof (estimate_tax_binary64 (-5)) as (_ & Hneg & _).
  exact (conj H0 (conj H1 (conj (H19 H0 H1) (Hneg H2)))).
Defined.

(** C6 as stated fails at a net position that is a NaN, as the ledger
    "buy 1e200 units at 1e200, sell them at 1e200" leaves it ([inf - inf]
    added to [losses]).  A NaN is not [<= 0], so the claim puts it in the
    27% bracket, with estimate [round(nan * 0.27, 2)], a NaN; the code
    tests [net_position > 0], which is false, and returns 0. *)
Lemma estimate_tax_nan :
  let s := run_engine [buy "BTC" 1e200 1e200; sell "BTC" 1e200 1e200] in
  let net := gains s + losses s in
  is_nan net = true /\
  (net <=? 0) = false /\
  _estimate_tax net = 0 /\
  sum_estimated_tax_liability (get_summary s) = 0 /\
  is_nan (tax_estimate_spec net) = true /\
  _estimate_tax net <> tax_estimate_spec net.
Proof.
  cbv zeta.
  repeat (split; [vm_compute; reflexivity|]).
  intros H. apply (f_equal is_nan) in H. vm_compute in H. discriminate.
Qed.

(** ** Sign of the accumulators on floats *)

Lemma float_process_sell_accounts tx s :
  no_lots s (asset tx) = false ->
  ((0 <? realized_gain tx s) = true ->
     gains (_process_sell tx s) = gains s + realized_gain tx s /\
     losses (_process_sell tx s) = losses s) /\
  ((0 <? realized_gain tx s) = false ->
     gains (_process_sell tx s) = gains s /\
     losses (_process_sell tx s) = losses s + realized_gain tx s).
Proof.
  intros Hno. unfold _process_sell. rewrite Hno. split; intros Hg.
  - rewrite Hg. split; reflexivity.
  - rewrite Hg. split; reflexivity.
Qed.

Lemma float_add_transaction_accounts tx s :
  (gains (add_transaction tx s) = gains s /\
   losses (add_transaction tx s) = losses s) \/
  (tx_type tx = "sell" /\ no_lots s (asset tx) = false /\
   (((0 <? realized_gain tx s) = true /\
     gains (add_transaction tx s) = gains s + realized_gain tx s /\
     losses (add_transaction tx s) = losses s) \/
    ((0 <? realized_gain tx s) = false /\
     gains (add_transaction tx s) = gains s /\
     losses (add_transaction tx s) = losses s + realized_gain tx s))).
Proof.
  unfold add_transaction.
  destruct (String.eqb_spec (tx_type tx) "buy"); [left; split; reflexivity|].
  destruct (String.eqb_spec (tx_type tx) "sell") as [Hs|Hs].
  - set (s0 := set_transactions (transactions s ++ [tx]) s).
    destruct (no_lots s (asset tx)) eqn:Hno.
    + left. unfold _process_sell.
      change (no_lots s0 (asset tx)) with (no_lots s (asset tx)).
      rewrite Hno. split; reflexivity.
    + right. split; [exact Hs|]. split; [reflexivity|].
      destruct (float_process_sell_accounts tx s0 Hno) as [Hp Hn].
      change (realized_gain tx s0) with (realized_gain tx s) in *.
      destruct (0 <? realized_gain tx s) eqn:Hg.
      * left. split; [reflexivity|]. exact (Hp eq_refl).
      * right. split; [reflexivity|]. exact (Hn eq_refl).
  - left. destruct (String.eqb (tx_type tx) "staking"); split; reflexivity.
Qed.

(** What holds of the accumulators whatever the ledger. *)
Lemma float_add_transaction_signs tx s :
  (0 <=? gains s) = true -> (0 <? losses s) = false ->
  (0 <=? gains (add_transaction tx s)) = true /\
  (0 <? losses (add_transaction tx s)) = false.
Proof.
  intros Hg Hl.
  destruct (float_add_transaction_accounts tx s)
    as [[-> ->]|(_ & _ & [(Hpos & -> & ->)|(Hneg & -> & ->)])].
  - auto.
  - split; [now apply add_nonneg | exact Hl].
  - split; [exact Hg | now apply add_notpos].
Qed.

Lemma float_run_engine_snoc txs tx :
  run_engine (txs ++ [tx]) = add_transaction tx (run_engine txs).
Proof. unfold run_engine. now rewrite fold_left_app. Qed.

Lemma float_run_engine_signs txs :
  (0 <=? gains (run_engine txs)) = true /\
  (0 <? losses (run_engine txs)) = false.
Proof.
  induction txs as [|tx txs [IHg IHl]] using rev_ind.
  - split; reflexivity.
  - rewrite float_run_engine_snoc. now apply float_add_transaction_signs.
Qed.

(** C9, amended: [gains] is always [>= 0] and [losses] is never
    positive.  Adding a transaction keeps [losses <= 0] as long as the
    realized gain of a sale is not a NaN; a gain that is not positive,
    a NaN included, is added to [losses] as it is, and a NaN gain makes
    [losses] a NaN.  The summary reports the absolute value of [losses]
    and the net position [gains + losses], each rounded to two decimals,
    and estimates the tax on the unrounded net. *)
Theorem accumulator_signs_binary64 :
  (forall (tx : Transaction) (s : SimpleTaxEngine),
     (0 <=? gains s) = true -> (losses s <=? 0) = true ->
     (tx_type tx = "sell" -> no_lots s (asset tx) = false ->
      is_nan (realized_gain tx s) = false) ->
     (0 <=? gains (add_transaction tx s)) = true /\
     (losses (add_transaction tx s) <=? 0) = true) /\
  (forall txs : list Transaction,
     (0 <=? gains (run_engine txs)) = true /\
     (0 <? losses (run_engine txs)) = false) /\
  (forall (tx : Transaction) (s : SimpleTaxEngine),
     tx_type tx = "sell" -> no_lots s (asset tx) = false ->
     let g := realized_gain tx s in
     let s' := add_transaction tx s in
     ((0 <? g) = true -> gains s' = gains s + g /\ losses s' = losses s) /\
     ((0 <? g) = false -> losses s' = losses s + g /\ gains s' = gains s) /\
     (is_nan g = true -> is_nan (losses s') = true)) /\
  (forall s : SimpleTaxEngine,
     let r := get_summary s in
     sum_gains r = round (gains s) 2 /\
     sum_losses r = round (abs (losses s)) 2 /\
     sum_net_position r = round (gains s + losses s) 2 /\
     sum_estimated_tax_liability r = _estimate_tax (gains s + losses s)).
Proof.
  split; [|split; [exact float_run_engine_signs|split]].
  - intros tx s Hg Hl Hnan.
    destruct (float_add_transaction_accounts tx s)
      as [[-> ->]|(Hty & Hno & [(Hpos & -> & ->)|(Hneg & -> & ->)])].
    + auto.
    + split; [now apply add_nonneg | exact Hl].
    + split; [exact Hg|]. apply add_nonpos; [exact Hl|].
      apply nonpos_of_notpos; [exact (Hnan Hty Hno) | exact Hneg].
  - intros tx s Hty Hno. cbv zeta.
    replace (add_transaction tx s)
      with (_process_sell tx (set_transactions (transactions s ++ [tx]) s))
      by (unfold add_transaction; now rewrite Hty).
    destruct (float_process_sell_accounts tx
                (set_transactions (transactions s ++ [tx]) s) Hno)
      as [Hpos Hneg].
    change (realized_gain tx (set_transactions (transactions s ++ [tx]) s))
      with (realized_gain tx s) in *.
    split; [exact Hpos|]. split.
    + intros H. destruct (Hneg H) as [Eg El]. split; assumption.
    + intros Hn.
      assert (H : (0 <? realized_gain tx s) = false).
      { apply is_nan_spec in Hn. now rewrite ltb_spec, Hn. }
      destruct (Hneg H) as [_ ->]. now apply add_nan.
  - intros s. cbv zeta. repeat split.
Qed.

Lemma accumulator_signs_binary64_witness :
  let s := run_engine [buy "BTC" 1 100] in
  let s' := add_transaction (sell "BTC" 1 60) s in
  (0 <=? gains s) = true /\ (losses s <=? 0) = true /\
  (0 <=? gains s') = true /\ (losses s' <=? 0) = true.
Proof.
  cbv zeta.
  assert (Hg : (0 <=? gains (run_engine [buy "BTC" 1 100])) = true)
    by reflexivity.
  assert (Hl : (losses (run_engine [buy "BTC" 1 100]) <=? 0) = true)
    by reflexivity.
  destruct accumulator_signs_binary64 as (Hstep & _).
  destruct (Hstep (sell "BTC" 1 60) (run_engine [buy "BTC" 1 100]) Hg Hl)
    as [Hg' Hl'].
  - intros _ _. vm_compute. reflexivity.
  - exact (conj Hg (conj Hl (conj Hg' Hl'))).
Defined.

(** C9 as stated fails: one lot of 1e200 units bought at 1e200 and sold
    at the same price.  Cost and proceeds both overflow to infinity, the
    realized gain is [inf - inf], a NaN, and the sale adds it to
    [losses]: after it [losses <= 0] is false, and the summary reports
    NaN losses and a NaN net position. *)
Lemma losses_nan_after_overflow :
  let b := buy "BTC" 1e200 1e200 in
  let v := sell "BTC" 1e200 1e200 in
  let s := run_engine [b] in
  let s' := add_transaction v s in
  (0 <=? gains s) = true /\ (losses s <=? 0) = true /\
  is_nan (realized_gain v s) = true /\
  (losses s' <=? 0) = false /\
  is_nan (losses s') = true /\
  is_nan (sum_losses (get_summary s')) = true /\
  is_nan (sum_net_position (get_summary s')) = true /\
  ~ (forall tx st,
       (0 <=? gains st) = true -> (losses st <=? 0) = true ->
       (0 <=? gains (add_transaction tx st)) = true /\
       (losses (add_transaction tx st) <=? 0) = true).
Proof.
  cbv zeta.
  assert (Hbad : (losses (add_transaction (sell "BTC" 1e200 1e200)
                            (run_engine [buy "BTC" 1e200 1e200])) <=? 0)
                 = false) by (vm_compute; reflexivity).
  repeat (split; [vm_compute; reflexivity|]).
  intros H.
  destruct (H (sell "BTC" 1e200 1e200) (run_engine [buy "BTC" 1e200 1e200]))
    as [_ Hl]; [reflexivity | reflexivity |].
  rewrite Hbad in Hl. discriminate.
Qed.

End Binary64.
